(** * scimilarity: cell embedding, kNN adapter and weighted multi-store loading

    A shallow embedding of

      - [scimilarity/cell_embedding.py]   (class [CellEmbedding]) and
      - [scimilarity/zarr_data_models.py] (classes [scDatasetFromList] and
        [MetricLearningZarrDataModule]),

    followed by the properties of the batched embedder, of the kNN index
    adapter, of the multi-store index mapping and of the sampler weights. *)

From Stdlib Require Import ZArith Lia Reals Lra.
From stdpp Require Import base list strings gmap sorting pretty.

Local Open Scope Z_scope.

(** ** Python values shared by both source files *)

(** Exceptions, by class and message. *)
Inductive exn :=
| RuntimeError (msg : string)
| ValueError (msg : string)
| AttributeError (msg : string)
| IndexError (msg : string)
| ZeroDivisionError (msg : string)
| TypeError (msg : string).

(** The outcome of a call: a returned value or a raised exception. *)
Inductive result (A : Type) :=
| Ok (a : A)
| Raise (e : exn).
Arguments Ok {A} a.
Arguments Raise {A} e.

#[export] Instance result_ret : MRet result := λ A a, Ok a.
#[export] Instance result_bind : MBind result := λ A B k r,
  match r with
  | Ok a => k a
  | Raise e => Raise e
  end.

(** A list comprehension whose body may raise: the first exception, in
    iteration order, aborts the comprehension. *)
Fixpoint comprehension {A B} (f : A → result B) (l : list A) : result (list B) :=
  match l with
  | [] => Ok []
  | a :: l' => b ← f a; bs ← comprehension f l'; Ok (b :: bs)
  end.

(** Floating-point values by IEEE class.  Finite values carry the real number
    they stand for: rounding and the sign of zero are not represented. *)
Inductive npfloat :=
| Fin (r : R)
| PosInf
| NegInf
| NaN.

(** [numpy.isnan], [numpy.isfinite] on one entry. *)
Definition isnan (x : npfloat) : bool :=
  match x with NaN => true | _ => false end.

Definition isfinite (x : npfloat) : bool :=
  match x with Fin _ => true | _ => false end.

(** [range(start, stop, step)] for a non-zero step: CPython's length formula,
    then the arithmetic progression. *)
Definition range_length (start stop step : Z) : Z :=
  if 0 <? step then
    if start <? stop then (stop - start - 1) / step + 1 else 0
  else
    if stop <? start then (start - stop - 1) / (- step) + 1 else 0.

Definition range_items (start stop step : Z) : list Z :=
  (λ k : nat, start + Z.of_nat k * step) <$> seq 0 (Z.to_nat (range_length start stop step)).

Definition py_range (start stop step : Z) : result (list Z) :=
  if step =? 0 then Raise (ValueError "range() arg 3 must not be zero")
  else Ok (range_items start stop step).

(** One bound of a slice [l[i:j]] on a sequence of length [n]: a negative
    bound counts from the end, and the bound is clamped to [[0, n]]. *)
Definition slice_bound (n i : Z) : Z :=
  if i <? 0 then Z.max (i + n) 0 else Z.min i n.

(** [l[i:j]]. *)
Definition py_slice {A} (l : list A) (i j : Z) : list A :=
  let n := Z.of_nat (length l) in
  let lo := slice_bound n i in
  let hi := slice_bound n j in
  take (Z.to_nat (hi - lo)) (drop (Z.to_nat lo) l).

(** ** cell_embedding.py *)

(** A row of an expression or embedding matrix, and a 2-D [torch.Tensor] as
    its rows. *)
Definition row := list npfloat.
Definition tensor := list row.

(** The objects [get_embeddings] may receive as [X].  A sparse matrix is
    represented by the dense rows it stands for; [lazy] records whether one
    of its [data], [indices], [indptr] arrays is a [zarr.core.Array].  Any
    other object is kept by the text of its [type(X)] and its [shape[0]], if
    it has one. *)
Inductive matrix :=
| NdArray (a : list row)
| TorchTensor (t : tensor)
| CsrMatrix (dense : list row) (lazy : bool)
| OtherObject (type_repr : string) (shape0 : option Z).

(** [X.shape[0]]. *)
Definition shape_0 (X : matrix) : result Z :=
  match X with
  | NdArray a => Ok (Z.of_nat (length a))
  | TorchTensor t => Ok (Z.of_nat (length t))
  | CsrMatrix dense _ => Ok (Z.of_nat (length dense))
  | OtherObject ty (Some n) => Ok n
  | OtherObject ty None => Raise (AttributeError "shape")
  end.

(** The conversion of a float64 entry to float32.  A finite entry at or
    beyond [2^128 - 2^103], half a unit in the last place above the largest
    float32, becomes the infinity of its sign; a finite entry below keeps
    the real it stands for, its rounding not being represented; infinities
    and NaN are kept. *)
Definition float32_overflow : R := IZR (2 ^ 128 - 2 ^ 103).

Definition to_float32 (x : npfloat) : npfloat :=
  match x with
  | Fin r =>
      if Rle_dec float32_overflow r then PosInf
      else if Rle_dec r (- float32_overflow) then NegInf
      else Fin r
  | _ => x
  end.

(** [torch.Tensor(a)] on a numpy array: the float32 tensor of its entries.
    [m.toarray()]: the dense rows of a sparse matrix. *)
Definition torch_Tensor (a : list row) : tensor := (λ r : row, to_float32 <$> r) <$> a.
Arguments to_float32 : simpl never.
Definition toarray (m : list row) : list row := m.

(** [torch.vstack]: the rows of the parts, in order.  Every part comes from
    the same encoder, hence has the same number of columns. *)
Definition vstack (parts : list tensor) : tensor := concat parts.

(** [np.isnan(embedding).any()]. *)
Definition any_isnan (embedding : tensor) : bool :=
  existsb (existsb isnan) embedding.

(** The encoder of [nn_models]: its latent dimension and its forward pass on a
    batch of rows.  [cuda] moves a tensor and keeps its values. *)
Record Encoder := {
  enc_latent_dim : Z;
  forward : tensor → tensor;
}.

Definition cuda (t : tensor) : tensor := t.

(** The [hnswlib] library: what an initialised index holds, how an index file
    is read for a space of a given dimension, the k-NN search over an
    index with a given [ef], and the text of the [TypeError] of a call
    [set_ef(ef)] on an index of a given space and dimension whose argument
    is no unsigned size. *)
Class Hnswlib := {
  index_data : Type;
  read_index_file : string → Z → result index_data;
  search_knn : index_data → Z → tensor → Z → result (list (list Z) * list row);
  set_ef_incompatible : string → Z → Z → string;
}.

(** An [hnswlib.Index] object. *)
Record Index `{Hnswlib} := {
  space : string;
  dim : Z;
  ef : Z;
  data : option index_data;
}.

(** [hnswlib.Index(space, dim)]: not initialised, [ef] at the library's
    default. *)
Definition Index_new `{Hnswlib} (space : string) (dim : Z) : Index :=
  {| space := space; dim := dim; ef := 10; data := None |}.

(** An argument that converts to the library's [size_t]. *)
Definition is_size_t (n : Z) : bool := (0 <=? n) && (n <? 2 ^ 64).

(** [index.set_ef(ef)]: the argument is a [size_t]; any other integer is
    refused with [TypeError] before the index is touched. *)
Definition set_ef `{Hnswlib} (index : Index) (new_ef : Z) : result Index :=
  if is_size_t new_ef then
    Ok {| space := space index; dim := dim index; ef := new_ef; data := data index |}
  else Raise (TypeError (set_ef_incompatible (space index) (dim index) new_ef)).

(** [index.knn_query(embeddings, k=k)]: a search, no write to the index. *)
Definition knn_query `{Hnswlib} (index : Index) (embeddings : tensor) (k : Z)
    : result (list (list Z) * list row) :=
  match data index with
  | Some d => search_knn d (ef index) embeddings k
  | None => Raise (RuntimeError "Index not initialized")
  end.

(** The constants of [b_colors.BColors] used here. *)
Class BColors := {
  WARNING : string;
  ENDC : string;
}.

(** The fields of a [CellEmbedding] object that its methods read or write. *)
Record CellEmbedding `{Hnswlib} := {
  model_path : string;
  use_gpu : bool;
  gene_order : list string;
  model : Encoder;
  knn : option Index;
}.

(** What the methods see of the outside: the file system and the text
    printed so far. *)
Inductive fsnode :=
| RegularFile (content : string)
| Directory.

Record state `{Hnswlib} := {
  self : CellEmbedding;
  fs : gmap string fsnode;
  stdout : list string;
}.

(** A method body: it runs from a state, ends in a value or an exception and
    leaves a state either way. *)
Definition M `{Hnswlib} (A : Type) : Type := state → result A * state.

#[export] Instance M_ret `{Hnswlib} : MRet M := λ A a σ, (Ok a, σ).
#[export] Instance M_bind `{Hnswlib} : MBind M := λ A B k m σ,
  match m σ with
  | (Ok a, σ') => k a σ'
  | (Raise e, σ') => (Raise e, σ')
  end.
Definition raise `{Hnswlib} {A} (e : exn) : M A := λ σ, (Raise e, σ).
Definition lift `{Hnswlib} {A} (r : result A) : M A := λ σ, (r, σ).

(** [os.path.isfile(path)]: the path names an existing regular file. *)
Definition path_isfile (files : gmap string fsnode) (path : string) : bool :=
  match files !! path with
  | Some (RegularFile _) => true
  | _ => false
  end.

Definition isfile `{Hnswlib} (path : string) : M bool :=
  λ σ, (Ok (path_isfile (fs σ) path), σ).

(** [print(text)]. *)
Definition print `{Hnswlib} (text : string) : M unit :=
  λ σ, (Ok tt, {| self := self σ; fs := fs σ; stdout := stdout σ ++ [text] |}).

(** Reading [self.knn] and [self.model], and the assignment [self.knn = v]. *)
Definition get_knn `{Hnswlib} : M (option Index) := λ σ, (Ok (knn (self σ)), σ).
Definition get_model `{Hnswlib} : M Encoder := λ σ, (Ok (model (self σ)), σ).
Definition set_knn `{Hnswlib} (v : option Index) : M unit :=
  λ σ, (Ok tt,
        {| self := {| model_path := model_path (self σ); use_gpu := use_gpu (self σ);
                      gene_order := gene_order (self σ); model := model (self σ);
                      knn := v |};
           fs := fs σ; stdout := stdout σ |}).

(** [index.load_index(knn_file)] on the object held by [self.knn]: the file
    is read and the object becomes an initialised index, [ef] back at the
    default.  A file that cannot be read as an index raises and leaves the
    object as it was. *)
Definition knn_load_index `{Hnswlib} (index : Index) (knn_file : string) : M unit :=
  λ σ, match fs σ !! knn_file with
       | Some (RegularFile content) =>
           match read_index_file content (dim index) with
           | Ok d => set_knn (Some {| space := space index; dim := dim index;
                                      ef := 10; data := Some d |}) σ
           | Raise e => (Raise e, σ)
           end
       | _ => (Raise (RuntimeError "Cannot open file"), σ)
       end.

(** [CellEmbedding.load_knn_index]. *)
Definition load_knn_index `{Hnswlib} `{BColors} (knn_file : string) : M unit :=
  found ← isfile knn_file;
  if found : bool then
    (m ← get_model;
     let index := Index_new "cosine" (enc_latent_dim m) in
     set_knn (Some index);;
     knn_load_index index knn_file)
  else
    (print (WARNING ++ "Warning: No KNN index found at " ++ knn_file ++ ENDC);;
     set_knn None).

(** The message of the exception raised by a query without an index. *)
Definition knn_not_initialized : string :=
  "kNN is not initialized. If no kNN index file is found, run the method build_knn.".

(** [CellEmbedding.get_nearest_neighbors]. *)
Definition get_nearest_neighbors `{Hnswlib} (embeddings : tensor) (k : Z) (ef : Z)
    : M (list (list Z) * list row) :=
  index ← get_knn;
  match index with
  | None => raise (RuntimeError knn_not_initialized)
  | Some index =>
      index ← lift (set_ef index ef);
      set_knn (Some index);;
      lift (knn_query index embeddings k)
  end.

(** The step of [get_embeddings] that reads a sparse matrix backed by zarr
    arrays into memory when the whole request fits one buffer.  The rows the
    matrix stands for are the same before and after. *)
Definition materialize (X : matrix) (num_cells buffer_size : Z) : matrix :=
  match X with
  | CsrMatrix dense true =>
      if num_cells <=? buffer_size then CsrMatrix dense false else X
  | _ => X
  end.

(** The rows of [X] taken by the loop iteration at offset [i], as the tensor
    given to the encoder; an exception for an object of no known type. *)
Definition profiles_at (X : matrix) (i buffer_size : Z) : result tensor :=
  match X with
  | NdArray a => Ok (torch_Tensor (py_slice a i (i + buffer_size)))
  | TorchTensor t => Ok (py_slice t i (i + buffer_size))
  | CsrMatrix dense _ => Ok (torch_Tensor (toarray (py_slice dense i (i + buffer_size))))
  | OtherObject ty _ => Raise (RuntimeError ("Unknown data type " ++ ty ++ "."))
  end.

(** The number of cells the loop runs over: [X.shape[0]] for the sentinel
    [-1], the argument otherwise. *)
Definition resolve_num_cells (X : matrix) (num_cells : Z) : result Z :=
  if num_cells =? -1 then shape_0 X else Ok num_cells.

(** The tensors given to the encoder, one per loop iteration, in order. *)
Definition embedding_inputs (X : matrix) (num_cells buffer_size : Z)
    : result (list tensor) :=
  num_cells ← resolve_num_cells X num_cells;
  let X := materialize X num_cells buffer_size in
  offsets ← py_range 0 num_cells buffer_size;
  comprehension (λ i, profiles_at X i buffer_size) offsets.

Definition no_valid_cells : string := "No valid cells detected.".
Definition nan_detected : string := "NaN detected in embeddings.".

(** [CellEmbedding.get_embeddings].  It reads [self.use_gpu] and
    [self.model] and writes no field of [self]. *)
Definition get_embeddings `{Hnswlib} (self : CellEmbedding) (X : matrix)
    (num_cells buffer_size : Z) : result tensor :=
  num_cells ← resolve_num_cells X num_cells;
  let X := materialize X num_cells buffer_size in
  offsets ← py_range 0 num_cells buffer_size;
  embedding_parts ←
    comprehension
      (λ i, profiles ← profiles_at X i buffer_size;
            let profiles := if use_gpu self then cuda profiles else profiles in
            Ok (forward (model self) profiles))
      offsets;
  match embedding_parts with
  | [] => Raise (RuntimeError no_valid_cells)
  | _ :: _ =>
      let embedding := vstack embedding_parts in
      if any_isnan embedding then Raise (RuntimeError nan_detected)
      else Ok embedding
  end.

(** ** zarr_data_models.py *)

(** [l[i]] on a Python list: a negative index counts from the end. *)
Definition py_index {A} (l : list A) (i : Z) : result A :=
  let n := Z.of_nat (length l) in
  let j := if i <? 0 then i + n else i in
  if (0 <=? j) && (j <? n) then
    match l !! Z.to_nat j with
    | Some x => Ok x
    | None => Raise (IndexError "list index out of range")
    end
  else Raise (IndexError "list index out of range").

(** What [scDatasetFromList] asks of a store ([ZarrDataset]): its row count,
    a dense row, an annotation column. *)
Class Store (D : Type) := {
  shape0 : D → nat;
  get_cell : D → nat → result row;
  get_obs : D → string → list string;
}.

(** The fields of an [scDatasetFromList] object. *)
Record scDatasetFromList (D : Type) := {
  data_list : list D;
  ncells_list : list nat;
  ncells : nat;
  obs_celltype : string;
  obs_study : string;
  data_idx : list nat;
  cell_idx : list nat;
}.
Arguments data_list {D} _.
Arguments ncells_list {D} _.
Arguments ncells {D} _.
Arguments obs_celltype {D} _.
Arguments obs_study {D} _.
Arguments data_idx {D} _.
Arguments cell_idx {D} _.

(** [scDatasetFromList.__init__]: the two comprehensions range over the stores
    in list order and, within a store, over its rows. *)
Definition scDatasetFromList_init {D} `{Store D} (data_list : list D)
    (obs_celltype obs_study : string) : scDatasetFromList D :=
  let ncells_list := shape0 <$> data_list in
  {| data_list := data_list;
     ncells_list := ncells_list;
     ncells := sum_list ncells_list;
     obs_celltype := obs_celltype;
     obs_study := obs_study;
     data_idx := n ← seq 0 (length ncells_list); i ← seq 0 (ncells_list !!! n); [n];
     cell_idx := n ← seq 0 (length ncells_list); i ← seq 0 (ncells_list !!! n); [i] |}.

(** [scDatasetFromList.__len__]. *)
Definition scDatasetFromList_len {D} (ds : scDatasetFromList D) : nat := ncells ds.

(** [scDatasetFromList.__getitem__]: the row, its cell type and its study. *)
Definition scDatasetFromList_getitem {D} `{Store D} (ds : scDatasetFromList D) (idx : Z)
    : result (row * string * string) :=
  d ← py_index (data_idx ds) idx;
  c ← py_index (cell_idx ds) idx;
  store ← py_index (data_list ds) (Z.of_nat d);
  cell ← get_cell store c;
  label ← py_index (get_obs store (obs_celltype ds)) (Z.of_nat c);
  study ← py_index (get_obs store (obs_study ds)) (Z.of_nat c);
  Ok (cell, label, study).

(** [collections.Counter(l)] and its lookup, which is 0 on a missing key. *)
Definition Counter (l : list string) : gmap string nat :=
  foldl (λ c x, <[x := S (default 0%nat (c !! x))]> c) ∅ l.

Definition Counter_get (c : gmap string nat) (x : string) : nat :=
  default 0%nat (c !! x).

(** [x / n] for a Python float [x] and a Python int [n]. *)
Definition float_truediv (x : R) (n : nat) : result npfloat :=
  match n with
  | O => Raise (ZeroDivisionError "float division by zero")
  | S _ => Ok (Fin (x / INR n))
  end.

(** [np.log(n)] for a non-negative int [n]. *)
Definition np_log (n : nat) : npfloat :=
  match n with
  | O => NegInf
  | S _ => Fin (ln (INR n))
  end.

(** Division of numpy floats: a zero divisor gives an infinity or NaN, not
    an exception.  A zero is taken as positive. *)
Definition np_truediv (x y : npfloat) : npfloat :=
  match x, y with
  | NaN, _ | _, NaN => NaN
  | Fin a, Fin b =>
      if Req_dec_T b 0 then
        if Req_dec_T a 0 then NaN
        else if Rlt_dec 0 a then PosInf else NegInf
      else Fin (a / b)
  | Fin _, (PosInf | NegInf) => Fin 0
  | PosInf, Fin b => if Rle_dec 0 b then PosInf else NegInf
  | NegInf, Fin b => if Rle_dec 0 b then NegInf else PosInf
  | (PosInf | NegInf), (PosInf | NegInf) => NaN
  end.
Arguments np_truediv : simpl never.
Arguments np_log : simpl never.

(** A [torch.utils.data.WeightedRandomSampler], by its constructor
    arguments. *)
Record WeightedRandomSampler := {
  weights : list npfloat;
  num_samples : Z;
  replacement : bool;
}.

(** [WeightedRandomSampler(weights, num_samples)]. *)
Definition WeightedRandomSampler_init (weights : list npfloat) (num_samples : Z)
    : result WeightedRandomSampler :=
  if num_samples <=? 0 then
    Raise (ValueError ("num_samples should be a positive integer value, but got num_samples="
                       ++ pretty num_samples))
  else Ok {| weights := weights; num_samples := num_samples; replacement := true |}.

(** [torch.Tensor] on a list of floats. *)
Definition torch_Tensor_1d (l : list npfloat) : list npfloat := to_float32 <$> l.

(** [MetricLearningZarrDataModule.get_sampler_weights].  The list of weights
    goes through [torch.Tensor] into the sampler. *)
Definition get_sampler_weights (labels : list string) (studies : option (list string))
    : result WeightedRandomSampler :=
  match studies with
  | None =>
      let class_sample_count := Counter labels in
      sample_weights ←
        comprehension (λ t, float_truediv 1 (Counter_get class_sample_count t)) labels;
      let sample_weights := torch_Tensor_1d sample_weights in
      WeightedRandomSampler_init sample_weights (Z.of_nat (length sample_weights))
  | Some studies =>
      let class_sample_count := Counter labels in
      let study_sample_count := Counter studies in
      sample_weights ←
        comprehension
          (λ i, label ← py_index labels i;
                w ← float_truediv 1 (Counter_get class_sample_count label);
                study ← py_index studies i;
                Ok (np_truediv w (np_log (Counter_get study_sample_count study))))
          (range_items 0 (Z.of_nat (length labels)) 1);
      let sample_weights := torch_Tensor_1d sample_weights in
      WeightedRandomSampler_init sample_weights (Z.of_nat (length sample_weights))
  end.

(** A pandas [DataFrame] with string labels on both axes: the row labels, the
    column labels and the entry at a row label and a column label. *)
Record DataFrame (A : Type) := {
  index : list string;
  columns : list string;
  at_ : string → string → A;
}.
Arguments index {A} _.
Arguments columns {A} _.
Arguments at_ {A} _ _ _.

(** The labels of an axis of a cross tabulation: the values that occur, each
    once, in increasing order. *)
Definition axis_labels (vec : list string) : list string :=
  merge_sort String.le (remove_dups vec).

(** The number of positions at which [vec1] holds [r] and [vec2] holds [c]. *)
Definition cooccurrences (vec1 vec2 : list string) (r c : string) : nat :=
  length (filter (λ p, p = (r, c)) (zip vec1 vec2)).

(** [pd.crosstab(vec1, vec2)]: the table of co-occurrence counts, rows
    labelled by the values of [vec1] and columns by those of [vec2]. *)
Definition crosstab (vec1 vec2 : list string) : result (DataFrame nat) :=
  if bool_decide (length vec1 = length vec2) then
    Ok {| index := axis_labels vec1;
          columns := axis_labels vec2;
          at_ := cooccurrences vec1 vec2 |}
  else Raise (ValueError "All arrays must be of the same length").

(** [1 / counts]: entry by entry, an integer zero giving [inf]. *)
Definition reciprocal (counts : DataFrame nat) : DataFrame npfloat :=
  {| index := index counts;
     columns := columns counts;
     at_ := λ r c, np_truediv (Fin 1) (Fin (INR (at_ counts r c))) |}.

(** [df.replace(np.inf, 0)]. *)
Definition replace_inf_0 (df : DataFrame npfloat) : DataFrame npfloat :=
  {| index := index df;
     columns := columns df;
     at_ := λ r c, match at_ df r c with PosInf => Fin 0 | x => x end |}.

(** [df.unstack().to_dict()]: on a frame whose index has one level,
    [unstack] yields the series of all entries keyed by the column label
    first and the row label second; [to_dict] keeps those keys. *)
Definition unstack_to_dict {A} (df : DataFrame A) : gmap (string * string) A :=
  list_to_map (c ← columns df; r ← index df; [((c, r), at_ df r c)]).

(** [MetricLearningZarrDataModule.two_way_weighting]. *)
Definition two_way_weighting (vec1 vec2 : list string)
    : result (gmap (string * string) npfloat) :=
  counts ← crosstab vec1 vec2;
  let weights_matrix := replace_inf_0 (reciprocal counts) in
  Ok (unstack_to_dict weights_matrix).

(** ** The constructor of [CellEmbedding]: inferred sizes and label maps *)

(** A Python [dict] by its items in insertion order: lookup, and the
    assignment [d[k] = v], which keeps the place of a key that is present
    and appends a new one. *)
Fixpoint dict_get {K V} `{EqDecision K} (d : list (K * V)) (k : K) : option V :=
  match d with
  | [] => None
  | (k', v) :: d' => if decide (k' = k) then Some v else dict_get d' k
  end.

Fixpoint dict_set {K V} `{EqDecision K} (d : list (K * V)) (k : K) (v : V)
    : list (K * V) :=
  match d with
  | [] => [(k, v)]
  | (k', v') :: d' =>
      if decide (k' = k) then (k', v) :: d' else (k', v') :: dict_set d' k v
  end.

(** [{value: key for key, value in pairs}], for the items of a dict or for
    the pairs of [enumerate]: a value met again takes the later key. *)
Definition invert_dict {K V} `{EqDecision V} (pairs : list (K * V)) : list (V * K) :=
  foldl (λ d kv, dict_set d kv.2 kv.1) [] pairs.

(** [sub in s] on strings. *)
Fixpoint contains (sub s : string) : bool :=
  String.prefix sub s
  || match s with
     | EmptyString => false
     | String _ s' => contains sub s'
     end.

(** The entry [parameters] that the constructor infers. *)
Record parameters := {
  latent_dim : Z;
  hidden_dim : list Z;
}.

(** The layers kept from [layer_sizes.json]: the keys in sorted order that
    hold "weight" and whose shape has more than one dimension, each with its
    shape.  A key of the dict is looked up, so the lookup finds it. *)
Definition weight_layers (layer_sizes : list (string * list Z))
    : list (string * list Z) :=
  (λ key, (key, default [] (dict_get layer_sizes key)))
  <$> filter (λ key, contains "weight" key
                     && (1 <? Z.of_nat (length (default [] (dict_get layer_sizes key)))))
             (merge_sort String.le (layer_sizes.*1)).

(** The inference of the network size in [CellEmbedding.__init__]:
    [latent_dim] from the last kept layer, [hidden_dim] from all but the
    last. *)
Definition infer_parameters (layer_sizes : list (string * list Z)) : result parameters :=
  let layers := weight_layers layer_sizes in
  last_layer ← py_index layers (-1);
  latent ← py_index last_layer.2 0;
  dims ← comprehension (λ layer : string * list Z, py_index layer.2 0) layers;
  Ok {| latent_dim := latent; hidden_dim := py_slice dims 0 (-1) |}.

(** [self.label2int] of [CellEmbedding.__init__], from the items of
    [self.int2label]. *)
Definition CellEmbedding_label2int (int2label : list (Z * string)) : list (string * Z) :=
  invert_dict int2label.

(** ** The data module of zarr_data_models.py *)

(** Exceptions of the data module beyond the ones above. *)
Inductive raised :=
| Builtin (e : exn)
| KeyError (key : string)
| OSError (msg : string).

Inductive outcome (A : Type) :=
| Return (a : A)
| Throw (e : raised).
Arguments Return {A} a.
Arguments Throw {A} e.

#[export] Instance outcome_ret : MRet outcome := λ A a, Return a.
#[export] Instance outcome_bind : MBind outcome := λ A B k r,
  match r with
  | Return a => k a
  | Throw e => Throw e
  end.

Definition of_result {A} (r : result A) : outcome A :=
  match r with
  | Ok a => Return a
  | Raise e => Throw (Builtin e)
  end.

(** A list comprehension whose body may throw. *)
Fixpoint comprehension_outcome {A B} (f : A → outcome B) (l : list A)
    : outcome (list B) :=
  match l with
  | [] => Return []
  | a :: l' => b ← f a; bs ← comprehension_outcome f l'; Return (b :: bs)
  end.

(** [d[key]] on a dict with string keys. *)
Definition dict_index {V} (d : list (string * V)) (key : string) : outcome V :=
  match dict_get d key with
  | Some v => Return v
  | None => Throw (KeyError key)
  end.

(** [s.endswith(suffix)]. *)
Definition endswith (s suffix : string) : bool :=
  (String.length suffix <=? String.length s)%nat
  && String.eqb (String.substring (String.length s - String.length suffix)
                                  (String.length suffix) s) suffix.

(** [os.path.join(a, b)] on POSIX. *)
Definition path_join (a b : string) : string :=
  if String.prefix "/" b then b
  else if String.eqb a "" || endswith a "/" then (a ++ b)%string
  else (a ++ "/" ++ b)%string.

(** What the constructor asks of its surroundings: the entries of a
    directory, whether a path is a directory, the opening of a store, the
    stripped lines of the gene order file, and the order in which a [set] of
    strings is iterated, each string of the set once. *)
Class DataFiles (D : Type) := {
  listdir : string → outcome (list string);
  isdir : string → bool;
  ZarrDataset : string → outcome D;
  read_gene_order : string → outcome (list string);
  set_iter : list string → list string;
  set_iter_NoDup : ∀ l, NoDup (set_iter l);
  set_iter_elem_of : ∀ l x, x ∈ set_iter l ↔ x ∈ l;
}.

(** What the constructor keeps of one split. *)
Record split (D : Type) := {
  file_list : list string;
  dataset : scDatasetFromList D;
  split_Y : list string;
  split_study : list string;
}.
Arguments file_list {D} _.
Arguments dataset {D} _.
Arguments split_Y {D} _.
Arguments split_study {D} _.

(** The loop over the files of a split: a file whose path is a directory is
    opened and appended, and its labels and studies extend the two lists. *)
Fixpoint load_files {D} `{Store D} `{DataFiles D} (path obs_field : string)
    (files : list string) (data_list : list D) (Y study : list string)
    : outcome (list D * list string * list string) :=
  match files with
  | [] => Return (data_list, Y, study)
  | filename :: files' =>
      let data_path := path_join path filename in
      if isdir data_path then
        zarr_data ← ZarrDataset data_path;
        load_files path obs_field files'
          (data_list ++ [zarr_data])
          (Y ++ get_obs zarr_data obs_field)
          (study ++ get_obs zarr_data "study")
      else load_files path obs_field files' data_list Y study
  end.

(** The part of the constructor run for the training split and, when their
    path is given, for the validation and test splits. *)
Definition load_split {D} `{Store D} `{DataFiles D} (path obs_field : string)
    : outcome (split D) :=
  entries ← listdir path;
  let file_list := filter (λ f, endswith f ".aligned.zarr" = true) entries in
  '(data_list, Y, study) ← load_files path obs_field file_list [] [] [];
  Return {| file_list := file_list;
            dataset := scDatasetFromList_init data_list "celltype_name" "study";
            split_Y := Y;
            split_study := study |}.

(** The fields of a [MetricLearningZarrDataModule] object. *)
Record MetricLearningZarrDataModule (D : Type) := {
  train_path : string;
  val_path : option string;
  test_path : option string;
  batch_size : Z;
  num_workers : Z;
  dm_gene_order : list string;
  n_genes : nat;
  train : split D;
  class_names : list string;
  label2int : list (string * nat);
  int2label : list (nat * string);
  val : option (split D);
  test : option (split D);
}.
Arguments train_path {D} _.
Arguments val_path {D} _.
Arguments test_path {D} _.
Arguments batch_size {D} _.
Arguments num_workers {D} _.
Arguments dm_gene_order {D} _.
Arguments n_genes {D} _.
Arguments train {D} _.
Arguments class_names {D} _.
Arguments label2int {D} _.
Arguments int2label {D} _.
Arguments val {D} _.
Arguments test {D} _.

Definition load_optional_split {D} `{Store D} `{DataFiles D}
    (path : option string) (obs_field : string) : outcome (option (split D)) :=
  match path with
  | None => Return None
  | Some path => s ← load_split path obs_field; Return (Some s)
  end.

(** [enumerate(l)]. *)
Definition enumerate {A} (l : list A) : list (nat * A) :=
  zip (seq 0 (length l)) l.

(** [MetricLearningZarrDataModule.__init__]. *)
Definition MetricLearningZarrDataModule_init {D} `{Store D} `{DataFiles D}
    (train_path gene_order : string) (val_path test_path : option string)
    (obs_field : string) (batch_size num_workers : Z)
    : outcome (MetricLearningZarrDataModule D) :=
  genes ← read_gene_order gene_order;
  train ← load_split train_path obs_field;
  let class_names := set_iter (split_Y train) in
  let label2int := invert_dict (enumerate class_names) in
  let int2label := invert_dict label2int in
  val ← load_optional_split val_path obs_field;
  test ← load_optional_split test_path obs_field;
  Return {| train_path := train_path; val_path := val_path; test_path := test_path;
            batch_size := batch_size; num_workers := num_workers;
            dm_gene_order := genes; n_genes := length genes;
            train := train; class_names := class_names;
            label2int := label2int; int2label := int2label;
            val := val; test := test |}.

(** The result of [torch.squeeze] on a 2-D tensor: every dimension of size 1
    is dropped. *)
Inductive squeezed :=
| Scalar (x : npfloat)
| Vector (v : list npfloat)
| Matrix (rows : list row).

(** [np.vstack(profiles)] on rows: the rows must have one width. *)
Definition np_vstack (profiles : list row) : result (list row) :=
  match profiles with
  | [] => Raise (ValueError "need at least one array to concatenate")
  | p :: _ =>
      if forallb (λ q, (length q =? length p)%nat) profiles then Ok profiles
      else Raise (ValueError "all the input array dimensions except for the concatenation axis must match exactly")
  end.

(** [torch.squeeze] on the rows of a tensor with a row: a single row is
    its own vector, rows of a single entry are the vector of those entries. *)
Definition squeeze (t : tensor) : squeezed :=
  match t with
  | [[x]] => Scalar x
  | [r] => Vector r
  | _ => if forallb (λ r, (length r =? 1)%nat) t then Vector (concat t) else Matrix t
  end.

(** [MetricLearningZarrDataModule.collate]: the unpacking of the batch
    needs a triple, the profiles are stacked, converted by [torch.Tensor]
    and squeezed, and each label is looked up in [self.label2int].  The
    tensor of the labels is kept as the list of their integers. *)
Definition collate {D} (self : MetricLearningZarrDataModule D)
    (batch : list (row * string * string))
    : outcome (squeezed * list nat * list string) :=
  match batch with
  | [] => Throw (Builtin (ValueError "not enough values to unpack (expected 3, got 0)"))
  | _ :: _ =>
      let profiles := (λ b, b.1.1) <$> batch in
      let labels := (λ b, b.1.2) <$> batch in
      let studies := (λ b, b.2) <$> batch in
      stacked ← of_result (np_vstack profiles);
      ints ← comprehension_outcome (dict_index (label2int self)) labels;
      Return (squeeze (torch_Tensor stacked), ints, studies)
  end.

(** ** Views of the definitions used to state the properties *)

(** The array [embedding] of [get_embeddings], as it stands just before the
    NaN test: the function up to and including the [vstack]. *)
Definition stacked_embedding `{Hnswlib} (self : CellEmbedding) (X : matrix)
    (num_cells buffer_size : Z) : result tensor :=
  num_cells ← resolve_num_cells X num_cells;
  let X := materialize X num_cells buffer_size in
  offsets ← py_range 0 num_cells buffer_size;
  embedding_parts ←
    comprehension
      (λ i, profiles ← profiles_at X i buffer_size;
            let profiles := if use_gpu self then cuda profiles else profiles in
            Ok (forward (model self) profiles))
      offsets;
  match embedding_parts with
  | [] => Raise (RuntimeError no_valid_cells)
  | _ :: _ => Ok (vstack embedding_parts)
  end.

(** Some entry of the array is an infinity or NaN. *)
Definition any_nonfinite (embedding : tensor) : bool :=
  existsb (existsb (λ x, negb (isfinite x))) embedding.

(** The rows of a matrix of a supported type. *)
Definition matrix_rows (X : matrix) : option (list row) :=
  match X with
  | NdArray a => Some a
  | TorchTensor t => Some t
  | CsrMatrix dense _ => Some dense
  | OtherObject _ _ => None
  end.

(** The rows of a matrix of a supported type as the loop hands them to the
    encoder: a tensor as it is, an array or a sparse matrix through
    [torch.Tensor]. *)
Definition input_tensor (X : matrix) : option tensor :=
  match X with
  | NdArray a => Some (torch_Tensor a)
  | TorchTensor t => Some t
  | CsrMatrix dense _ => Some (torch_Tensor (toarray dense))
  | OtherObject _ _ => None
  end.

(** What [get_embeddings] does with the tensors of its loop: the encoder on
    each, the stack of the outputs, the test for an empty list and the test
    for NaN. *)
Definition embed_chunks `{Hnswlib} (self : CellEmbedding) (chunks : list tensor)
    : result tensor :=
  let embedding_parts := forward (model self) <$> chunks in
  match embedding_parts with
  | [] => Raise (RuntimeError no_valid_cells)
  | _ :: _ =>
      let embedding := vstack embedding_parts in
      if any_isnan embedding then Raise (RuntimeError nan_detected)
      else Ok embedding
  end.

(** The number of occurrences of [x] in [l]: the frequency of a label. *)
Definition frequency (x : string) (l : list string) : nat :=
  length (filter (λ y, y = x) l).

(** The sum of a list of weights, when every weight is finite. *)
Fixpoint sum_weights (ws : list npfloat) : option R :=
  match ws with
  | [] => Some 0%R
  | Fin r :: ws' => (λ total, (r + total)%R) <$> sum_weights ws'
  | _ :: _ => None
  end.

(** The weights of the rows that carry the label [t]. *)
Definition weights_of_label (t : string) (labels : list string) (ws : list npfloat)
    : list npfloat :=
  (filter (λ p, p.1 = t) (zip labels ws)).*2.

(** The shape shared by the comprehensions of [data_idx] and [cell_idx]:
    the stores in list order, and the rows of each store in order. *)
Definition flattened {B} (f : nat → nat → B) (cs : list nat) : list B :=
  n ← seq 0 (length cs); i ← seq 0 (cs !!! n); [f n i].

(** ** Concrete objects for the examples *)

(** An [hnswlib] whose index files hold nothing and whose search returns no
    neighbour. *)
Definition hnswlib_stub : Hnswlib :=
  {| index_data := unit;
     read_index_file := λ _ _, Ok tt;
     search_knn := λ _ _ embeddings _, Ok ((λ _, []) <$> embeddings, (λ _, []) <$> embeddings);
     set_ef_incompatible := λ _ _ _, "set_ef(): incompatible function arguments." |}.

Definition bcolors_ansi : BColors :=
  {| WARNING := "[93m"; ENDC := "[0m" |}.

(** An encoder with one latent dimension whose output overflows on every
    row, and one that copies the first entry of each row. *)
Definition encoder_overflow : Encoder :=
  {| enc_latent_dim := 1; forward := λ t, (λ _, [PosInf]) <$> t |}.

Definition encoder_first : Encoder :=
  {| enc_latent_dim := 1; forward := λ t, take 1 <$> t |}.

Definition cell_embedding_with (m : Encoder) (index : option (@Index hnswlib_stub))
    : @CellEmbedding hnswlib_stub :=
  {| model_path := "/opt/data/model"; use_gpu := false; gene_order := ["g1"];
     model := m; knn := index |}.

(** An index as [load_knn_index] leaves it after a successful load. *)
Definition loaded_index : @Index hnswlib_stub :=
  @Build_Index hnswlib_stub "cosine" 1 10 (Some tt).

Definition state_with (index : option (@Index hnswlib_stub)) : @state hnswlib_stub :=
  {| self := cell_embedding_with encoder_first index;
     fs := {[ "/opt/data/model" := Directory ]};
     stdout := [] |}.

(** An [hnswlib] that reads no empty file, and an object with a loaded
    index of it. *)
Definition hnswlib_strict : Hnswlib :=
  {| index_data := string;
     read_index_file := λ content _,
       if String.eqb content "" then Raise (RuntimeError "Index seems to be corrupted")
       else Ok content;
     search_knn := λ _ _ embeddings _, Ok ((λ _, []) <$> embeddings, (λ _, []) <$> embeddings);
     set_ef_incompatible := λ _ _ _, "set_ef(): incompatible function arguments." |}.

Definition loaded_index_strict : @Index hnswlib_strict :=
  @Build_Index hnswlib_strict "cosine" 1 10 (Some "index").

Definition state_strict : @state hnswlib_strict :=
  @Build_state hnswlib_strict
    (@Build_CellEmbedding hnswlib_strict "/opt/data/model" false ["g1"] encoder_first
       (Some loaded_index_strict))
    {[ "/opt/data/knn.bin" := RegularFile "" ]} [].

(** Stores given by their row count alone. *)
Definition store_of_size : Store nat :=
  {| shape0 := λ n, n;
     get_cell := λ _ _, Ok [];
     get_obs := λ n _, replicate n "" |}.

(** A store held in memory, and a directory [train] with two stores, a text
    file and a file that carries the store suffix without being a
    directory. *)
Record toy_store := {
  toy_rows : list row;
  toy_labels : list string;
  toy_studies : list string;
}.

Definition toy_store_Store : Store toy_store :=
  {| shape0 := λ z, length (toy_rows z);
     get_cell := λ z i,
       match toy_rows z !! i with
       | Some r => Ok r
       | None => Raise (IndexError "index out of range")
       end;
     get_obs := λ z name,
       if String.eqb name "celltype_name" then toy_labels z
       else if String.eqb name "study" then toy_studies z
       else [] |}.

Definition toy_store_a : toy_store :=
  {| toy_rows := [[Fin 1; Fin 2]; [Fin 3; Fin 4]];
     toy_labels := ["T cell"; "B cell"];
     toy_studies := ["s1"; "s1"] |}.

Definition toy_store_b : toy_store :=
  {| toy_rows := [[Fin 5; Fin 6]];
     toy_labels := ["T cell"];
     toy_studies := ["s2"] |}.

Definition toy_files : DataFiles toy_store :=
  {| listdir := λ path,
       if String.eqb path "train" then
         Return ["a.aligned.zarr"; "notes.txt"; "b.aligned.zarr"; "c.aligned.zarr"]
       else Throw (OSError "No such file or directory");
     isdir := λ path,
       String.eqb path "train/a.aligned.zarr" || String.eqb path "train/b.aligned.zarr";
     ZarrDataset := λ path,
       if String.eqb path "train/a.aligned.zarr" then Return toy_store_a
       else if String.eqb path "train/b.aligned.zarr" then Return toy_store_b
       else Throw (OSError "not a store");
     read_gene_order := λ _, Return ["g1"; "g2"];
     set_iter := remove_dups;
     set_iter_NoDup := NoDup_remove_dups;
     set_iter_elem_of := λ l x, elem_of_remove_dups l x |}.

Definition toy_data_module : outcome (MetricLearningZarrDataModule toy_store) :=
  @MetricLearningZarrDataModule_init toy_store toy_store_Store toy_files
    "train" "gene_order.tsv" None None "celltype_name" 1000 1.

(** * Properties *)

(** ** Python ranges and slices on small inputs *)

Example py_range_examples :
  py_range 0 25000 10000 = Ok [0; 10000; 20000]
  ∧ py_range 0 20000 10000 = Ok [0; 10000]
  ∧ py_range 0 0 10000 = Ok []
  ∧ py_range 0 (-5) (-2) = Ok [0; -2; -4]
  ∧ py_range 0 5 (-2) = Ok []
  ∧ py_range 0 5 0 = Raise (ValueError "range() arg 3 must not be zero").
Proof. repeat split; reflexivity. Qed.

Example py_slice_examples :
  py_slice [1; 2; 3; 4; 5] 0 2 = [1; 2]
  ∧ py_slice [1; 2; 3; 4; 5] 4 6 = [5]
  ∧ py_slice [1; 2; 3; 4; 5] 6 8 = []
  ∧ py_slice [1; 2; 3; 4; 5] (-2) 5 = [4; 5]
  ∧ py_slice [1; 2; 3; 4; 5] (-2) (-4) = [].
Proof. repeat split; reflexivity. Qed.

(** ** The kNN index adapter *)

Section knn_adapter.
Context `{Hnswlib} `{BColors}.

Lemma set_knn_same (σ : state) :
  set_knn (knn (self σ)) σ = (Ok (), σ).
Proof. by destruct σ as [[] ? ?]. Qed.

Lemma set_ef_size_t (index : Index) e :
  is_size_t e = true →
  set_ef index e
  = Ok {| space := space index; dim := dim index; ef := e; data := data index |}.
Proof. intros He. unfold set_ef. by rewrite He. Qed.

Lemma set_ef_refused (index : Index) e :
  is_size_t e = false →
  set_ef index e = Raise (TypeError (set_ef_incompatible (space index) (dim index) e)).
Proof. intros He. unfold set_ef. by rewrite He. Qed.

(** The whole effect of a call without an index: the exception, and the
    state as it was. *)
Lemma get_nearest_neighbors_unset (σ : state) embeddings k e :
  knn (self σ) = None →
  get_nearest_neighbors embeddings k e σ
  = (Raise (RuntimeError knn_not_initialized), σ).
Proof.
  intros Hknn. unfold get_nearest_neighbors, mbind, M_bind, get_knn.
  by rewrite Hknn.
Qed.

(** The whole effect of a call with an index and an [ef] that the index
    takes: [ef] is written to the index object, then the search runs on
    it. *)
Lemma get_nearest_neighbors_set (σ : state) index index' embeddings k e :
  knn (self σ) = Some index →
  set_ef index e = Ok index' →
  get_nearest_neighbors embeddings k e σ
  = (knn_query index' embeddings k, (set_knn (Some index') σ).2).
Proof.
  intros Hknn Hef. unfold get_nearest_neighbors, mbind, M_bind, get_knn.
  rewrite Hknn. simpl. unfold lift. rewrite Hef. simpl.
  by destruct (knn_query _ _ _).
Qed.

(** The whole effect of a call with an index and an [ef] that the index
    refuses: the exception, and the state as it was. *)
Lemma get_nearest_neighbors_refused (σ : state) index embeddings k e err :
  knn (self σ) = Some index →
  set_ef index e = Raise err →
  get_nearest_neighbors embeddings k e σ = (Raise err, σ).
Proof.
  intros Hknn Hef. unfold get_nearest_neighbors, mbind, M_bind, get_knn.
  rewrite Hknn. simpl. unfold lift. by rewrite Hef.
Qed.

(** The whole effect of a load from a path that is no regular file. *)
Lemma load_knn_index_missing (σ : state) knn_file :
  path_isfile (fs σ) knn_file = false →
  load_knn_index knn_file σ
  = (Ok (),
     {| self := {| model_path := model_path (self σ); use_gpu := use_gpu (self σ);
                   gene_order := gene_order (self σ); model := model (self σ);
                   knn := None |};
        fs := fs σ;
        stdout := stdout σ
                  ++ [(WARNING ++ "Warning: No KNN index found at " ++ knn_file ++ ENDC)%string] |}).
Proof.
  intros Hfile. unfold load_knn_index, mbind, M_bind, isfile.
  by rewrite Hfile.
Qed.
End knn_adapter.

(** C5: with no index loaded ([self.knn] unset), [get_nearest_neighbors]
    raises the runtime error whose message tells the caller to run
    [build_knn] first, whatever the embeddings, [k] and [ef]; the state is
    left as it was, and the outcome does not depend on the search of the
    index library, which is not called. *)
Theorem get_nearest_neighbors_requires_index `{Hnswlib}
    (σ : state) (embeddings : tensor) (k e : Z) :
  knn (self σ) = None →
  get_nearest_neighbors embeddings k e σ
  = (Raise (RuntimeError knn_not_initialized), σ)
  ∧ ∃ before after : string,
      knn_not_initialized = (before ++ "run the method build_knn" ++ after)%string.
Proof.
  intros Hknn. split.
  - by apply get_nearest_neighbors_unset.
  - by exists "kNN is not initialized. If no kNN index file is found, ", ".".
Qed.

Lemma get_nearest_neighbors_requires_index_witness :
  knn (self (state_with None)) = None
  ∧ get_nearest_neighbors [[Fin 1]] 50 100 (state_with None)
    = (Raise (RuntimeError knn_not_initialized), state_with None).
Proof.
  split; [reflexivity|].
  apply (get_nearest_neighbors_requires_index (state_with None) [[Fin 1]] 50 100).
  reflexivity.
Defined.

(** C6: for a path that is not an existing regular file, [load_knn_index]
    returns without raising, prints one warning naming the path, and leaves
    [self.knn] unset; the file system and the other fields are unchanged. *)
Theorem load_knn_index_missing_file `{Hnswlib} `{BColors}
    (σ : state) (knn_file : string) :
  path_isfile (fs σ) knn_file = false →
  ∃ σ', load_knn_index knn_file σ = (Ok (), σ')
    ∧ knn (self σ') = None
    ∧ stdout σ'
      = stdout σ ++ [(WARNING ++ "Warning: No KNN index found at " ++ knn_file ++ ENDC)%string]
    ∧ fs σ' = fs σ
    ∧ model (self σ') = model (self σ)
    ∧ use_gpu (self σ') = use_gpu (self σ)
    ∧ gene_order (self σ') = gene_order (self σ)
    ∧ model_path (self σ') = model_path (self σ).
Proof.
  intros Hfile. eexists. split; [by apply load_knn_index_missing|]. done.
Qed.

Lemma load_knn_index_missing_file_witness :
  path_isfile (fs (state_with None)) "/opt/data/model/knn.bin" = false
  ∧ ∃ σ', @load_knn_index hnswlib_stub bcolors_ansi "/opt/data/model/knn.bin" (state_with None)
          = (Ok (), σ')
    ∧ knn (self σ') = None.
Proof.
  split; [reflexivity|].
  destruct (@load_knn_index_missing_file hnswlib_stub bcolors_ansi
              (state_with None) "/opt/data/model/knn.bin" eq_refl)
    as (σ' & Hrun & Hknn & _).
  exists σ'. split; [exact Hrun | exact Hknn].
Defined.

(** C9: when an index is loaded and [load_knn_index] is called with a path
    that is not an existing regular file, the index is dropped ([self.knn]
    becomes unset), and the next [get_nearest_neighbors] raises the
    not-initialized error. *)
Theorem load_knn_index_missing_discards `{Hnswlib} `{BColors}
    (σ : state) (index : Index) (knn_file : string) (embeddings : tensor) (k e : Z) :
  knn (self σ) = Some index →
  path_isfile (fs σ) knn_file = false →
  ∃ σ', load_knn_index knn_file σ = (Ok (), σ')
    ∧ knn (self σ') = None
    ∧ get_nearest_neighbors embeddings k e σ'
      = (Raise (RuntimeError knn_not_initialized), σ').
Proof.
  intros _ Hfile. eexists. split; [by apply load_knn_index_missing|].
  split; [done|]. by apply get_nearest_neighbors_unset.
Qed.

Lemma load_knn_index_missing_discards_witness :
  knn (self (state_with (Some loaded_index))) = Some loaded_index
  ∧ path_isfile (fs (state_with (Some loaded_index))) "/opt/data/model" = false
  ∧ ∃ σ', @load_knn_index hnswlib_stub bcolors_ansi "/opt/data/model"
            (state_with (Some loaded_index)) = (Ok (), σ')
    ∧ knn (self σ') = None
    ∧ get_nearest_neighbors [[Fin 1]] 50 100 σ'
      = (Raise (RuntimeError knn_not_initialized), σ').
Proof.
  split; [reflexivity|]. split; [reflexivity|].
  exact (@load_knn_index_missing_discards hnswlib_stub bcolors_ansi
           (state_with (Some loaded_index)) loaded_index "/opt/data/model"
           [[Fin 1]] 50 100 eq_refl eq_refl).
Defined.




(** ** The batched embedder *)

Section embedder.
Context `{Hnswlib}.

(** [get_embeddings] is [stacked_embedding] followed by the NaN test. *)
Lemma get_embeddings_stacked (self : CellEmbedding) X num_cells buffer_size :
  get_embeddings self X num_cells buffer_size
  = (embedding ← stacked_embedding self X num_cells buffer_size;
     if any_isnan embedding then Raise (RuntimeError nan_detected)
     else Ok embedding).
Proof.
  unfold get_embeddings, stacked_embedding, mbind, result_bind.
  destruct (resolve_num_cells _ _) as [n|]; [|done].
  destruct (py_range _ _ _) as [offsets|]; [|done].
  destruct (comprehension _ _) as [[|part parts]|]; done.
Qed.

Lemma isnan_nonfinite x : isnan x = true → negb (isfinite x) = true.
Proof. by destruct x. Qed.

Lemma any_isnan_nonfinite embedding :
  any_nonfinite embedding = false → any_isnan embedding = false.
Proof.
  unfold any_nonfinite, any_isnan. intros Hfin.
  apply not_true_is_false. intros Hnan. apply not_true_iff_false in Hfin.
  apply Hfin. apply existsb_exists in Hnan as (r & Hr & Hnan).
  apply existsb_exists in Hnan as (x & Hx & Hnan).
  apply existsb_exists. exists r. split; [done|].
  apply existsb_exists. exists x. split; [done|]. by apply isnan_nonfinite.
Qed.

(** With a non-zero buffer size and a cell count resolved to 0 the loop
    has no iteration. *)
Lemma range_items_empty step : range_items 0 0 step = [].
Proof.
  unfold range_items, range_length.
  by destruct (0 <? step).
Qed.
End embedder.

(** C1, as the code has it: when some entry of the stacked embedding array
    is NaN, [get_embeddings] raises the runtime error "NaN detected in
    embeddings." instead of returning the array; when no entry is NaN the
    array is returned, and so in particular when every entry is finite.
    Entries that are infinite are not tested for. *)
Theorem get_embeddings_nan_check `{Hnswlib}
    (self : CellEmbedding) (X : matrix) (num_cells buffer_size : Z)
    (embedding : tensor) :
  stacked_embedding self X num_cells buffer_size = Ok embedding →
  (any_isnan embedding = true →
   get_embeddings self X num_cells buffer_size = Raise (RuntimeError nan_detected))
  ∧ (any_isnan embedding = false →
     get_embeddings self X num_cells buffer_size = Ok embedding)
  ∧ (any_nonfinite embedding = false →
     get_embeddings self X num_cells buffer_size = Ok embedding).
Proof.
  intros Hstack. rewrite get_embeddings_stacked, Hstack. simpl.
  split; [by intros ->|]. split; [by intros ->|].
  intros Hfin. by rewrite (any_isnan_nonfinite _ Hfin).
Qed.

Lemma get_embeddings_nan_check_witness :
  stacked_embedding (cell_embedding_with encoder_first None)
    (TorchTensor [[NaN; Fin 1]; [Fin 2; Fin 3]]) (-1) 1 = Ok [[NaN]; [Fin 2]]
  ∧ any_isnan [[NaN]; [Fin 2]] = true
  ∧ get_embeddings (cell_embedding_with encoder_first None)
      (TorchTensor [[NaN; Fin 1]; [Fin 2; Fin 3]]) (-1) 1 = Raise (RuntimeError nan_detected).
Proof.
  split; [reflexivity|]. split; [reflexivity|].
  apply (get_embeddings_nan_check (cell_embedding_with encoder_first None)
           (TorchTensor [[NaN; Fin 1]; [Fin 2; Fin 3]]) (-1) 1 [[NaN]; [Fin 2]]);
    reflexivity.
Defined.

(** C1 as stated fails: an encoder output with an infinite entry is returned
    as it is, with no error. *)
Lemma get_embeddings_returns_inf :
  stacked_embedding (cell_embedding_with encoder_overflow None)
    (NdArray [[Fin 1]]) (-1) 10000 = Ok [[PosInf]]
  ∧ any_nonfinite [[PosInf]] = true
  ∧ get_embeddings (cell_embedding_with encoder_overflow None)
      (NdArray [[Fin 1]]) (-1) 10000 = Ok [[PosInf]].
Proof. repeat split; reflexivity. Qed.

(** C8, as the code has it: with a non-zero buffer size, when the requested
    number of cells resolves to 0 — [num_cells = 0], or [num_cells = -1] on a
    matrix without rows — [get_embeddings] raises the runtime error "No valid
    cells detected." and returns no array. *)
Theorem get_embeddings_no_cells `{Hnswlib}
    (self : CellEmbedding) (X : matrix) (num_cells buffer_size : Z) :
  buffer_size ≠ 0 →
  resolve_num_cells X num_cells = Ok 0 →
  get_embeddings self X num_cells buffer_size = Raise (RuntimeError no_valid_cells).
Proof.
  intros Hstep Hzero. unfold get_embeddings. rewrite Hzero. simpl.
  unfold py_range. rewrite (proj2 (Z.eqb_neq _ _) Hstep). simpl.
  by rewrite range_items_empty.
Qed.

Lemma get_embeddings_no_cells_witness :
  (10000 ≠ 0
   ∧ resolve_num_cells (NdArray []) (-1) = Ok 0
   ∧ get_embeddings (cell_embedding_with encoder_first None) (NdArray []) (-1) 10000
     = Raise (RuntimeError no_valid_cells))
  ∧ (resolve_num_cells (NdArray [[Fin 1]]) 0 = Ok 0
     ∧ get_embeddings (cell_embedding_with encoder_first None) (NdArray [[Fin 1]]) 0 10000
       = Raise (RuntimeError no_valid_cells)).
Proof.
  split.
  - split; [lia|]. split; [reflexivity|].
    apply (get_embeddings_no_cells (cell_embedding_with encoder_first None)
             (NdArray []) (-1) 10000); [lia | reflexivity].
  - split; [reflexivity|].
    apply (get_embeddings_no_cells (cell_embedding_with encoder_first None)
             (NdArray [[Fin 1]]) 0 10000); [lia | reflexivity].
Defined.

(** C8 as stated fails: on a matrix without rows and a positive [num_cells]
    the loop runs once on an empty chunk, no row is processed, and the empty
    array is returned; and with a buffer size of 0 the exception is that of
    [range], not the one for an empty input. *)
Lemma get_embeddings_empty_matrix_returns :
  matrix_rows (NdArray []) = Some []
  ∧ embedding_inputs (NdArray []) 5 10000 = Ok [[]]
  ∧ get_embeddings (cell_embedding_with encoder_first None) (NdArray []) 5 10000 = Ok []
  ∧ get_embeddings (cell_embedding_with encoder_first None) (NdArray []) 0 0
    = Raise (ValueError "range() arg 3 must not be zero").
Proof. repeat split; reflexivity. Qed.

Section chunks.
Context {A : Type}.
Implicit Types l : list A.

(** A slice with bounds [0 ≤ i ≤ j]. *)
Lemma py_slice_nonneg l (i j : Z) :
  0 ≤ i → i ≤ j →
  py_slice l i j = take (Z.to_nat j - Z.to_nat i)%nat (drop (Z.to_nat i) l).
Proof.
  intros Hi Hij. unfold py_slice, slice_bound.
  destruct (Z.ltb_spec i 0) as [?|_]; [lia|].
  destruct (Z.ltb_spec j 0) as [?|_]; [lia|].
  destruct (Z.le_gt_cases (Z.of_nat (length l)) i) as [Hge|Hlt].
  - rewrite !(drop_ge l) by lia. by rewrite !take_nil.
  - rewrite (Z.min_l i) by lia.
    destruct (Z.le_gt_cases (Z.of_nat (length l)) j) as [Hjge|Hjlt].
    + rewrite (Z.min_r j) by lia.
      rewrite !take_ge; [done | rewrite length_drop; lia..].
    + rewrite (Z.min_l j) by lia. f_equal. lia.
Qed.

(** The first [k] chunks of size [b] make up the first [k * b] items. *)
Lemma concat_chunks l (b : Z) (k : nat) :
  0 < b →
  concat ((λ i, py_slice l i (i + b)) <$> ((λ j : nat, 0 + Z.of_nat j * b) <$> seq 0 k))
  = take (Z.to_nat (Z.of_nat k * b)) l.
Proof.
  intros Hb. induction k as [|k IH]; [done|].
  rewrite seq_S, !fmap_app, concat_app, IH. simpl. rewrite app_nil_r.
  rewrite py_slice_nonneg by lia.
  rewrite take_take_drop. f_equal. lia.
Qed.

(** The offsets of [range(0, n, b)] cut a list of [n] items into chunks
    that make up the list. *)
Lemma concat_range_chunks l (b : Z) :
  0 < b →
  concat ((λ i, py_slice l i (i + b)) <$> range_items 0 (Z.of_nat (length l)) b) = l.
Proof.
  intros Hb. unfold range_items. rewrite concat_chunks by done.
  apply take_ge. unfold range_length.
  destruct (Z.ltb_spec 0 b) as [_|?]; [|lia].
  destruct (Z.ltb_spec 0 (Z.of_nat (length l))) as [Hpos|Hzero]; [|lia].
  rewrite Z.sub_0_r.
  pose proof (Z.mul_succ_div_gt (Z.of_nat (length l) - 1) b Hb).
  pose proof (Z.div_pos (Z.of_nat (length l) - 1) b).
  nia.
Qed.

Lemma comprehension_Ok {B} (f : A → B) l :
  comprehension (λ a, Ok (f a)) l = Ok (f <$> l).
Proof. induction l as [|a l IH]; [done|]. simpl. by rewrite IH. Qed.

Lemma comprehension_ext {B} (f g : A → result B) l :
  (∀ a, f a = g a) → comprehension f l = comprehension g l.
Proof. intros Hfg. induction l as [|a l IH]; [done|]. simpl. by rewrite Hfg, IH. Qed.
End chunks.

Section all_cells.
Context `{Hnswlib}.

Lemma resolve_num_cells_all X rows :
  matrix_rows X = Some rows →
  resolve_num_cells X (-1) = Ok (Z.of_nat (length rows))
  ∧ resolve_num_cells X (Z.of_nat (length rows)) = Ok (Z.of_nat (length rows)).
Proof.
  intros Hrows. unfold resolve_num_cells.
  destruct (Z.eqb_spec (Z.of_nat (length rows)) (-1)) as [?|_]; [lia|].
  split; [|done]. by destruct X; simplify_eq/=.
Qed.

(** A slice of the image of a list is the image of the slice. *)
Lemma py_slice_fmap {A B} (f : A → B) (l : list A) i j :
  py_slice (f <$> l) i j = f <$> py_slice l i j.
Proof. unfold py_slice. by rewrite length_fmap, fmap_take, fmap_drop. Qed.

Lemma torch_Tensor_slice (a : list row) i j :
  torch_Tensor (py_slice a i j) = py_slice (torch_Tensor a) i j.
Proof. unfold torch_Tensor. by rewrite py_slice_fmap. Qed.

Lemma length_torch_Tensor (a : list row) : length (torch_Tensor a) = length a.
Proof. unfold torch_Tensor. by rewrite length_fmap. Qed.

(** A matrix with rows gives the encoder as many rows. *)
Lemma input_tensor_rows X rows :
  matrix_rows X = Some rows →
  ∃ t, input_tensor X = Some t ∧ length t = length rows.
Proof.
  destruct X; intros; simplify_eq/=; eexists; (split; [done|]);
    by rewrite ?length_torch_Tensor.
Qed.

Lemma input_tensor_materialize X n b :
  input_tensor (materialize X n b) = input_tensor X.
Proof. destruct X as [| |dense []|]; simpl; try done. by destruct (n <=? b). Qed.

Lemma profiles_at_input X t i b :
  input_tensor X = Some t → profiles_at X i b = Ok (py_slice t i (i + b)).
Proof.
  destruct X; intros; simplify_eq/=; try done; unfold toarray;
    by rewrite torch_Tensor_slice.
Qed.

(** The chunks of a matrix of a supported type, for a request resolved
    to [n]. *)
Lemma embedding_inputs_resolved X t num_cells n b :
  b ≠ 0 →
  input_tensor X = Some t →
  resolve_num_cells X num_cells = Ok n →
  embedding_inputs X num_cells b
  = Ok ((λ i, py_slice t i (i + b)) <$> range_items 0 n b).
Proof.
  intros Hb Ht Hres. unfold embedding_inputs. rewrite Hres. simpl.
  unfold py_range. rewrite (proj2 (Z.eqb_neq _ _) Hb). simpl.
  rewrite <-comprehension_Ok. apply comprehension_ext. intros i.
  apply profiles_at_input. by rewrite input_tensor_materialize.
Qed.

Lemma comprehension_bind_Ok {A B C} (f : A → result B) (g : B → C) (l : list A) :
  comprehension (λ a, f a ≫= λ b, Ok (g b)) l
  = (comprehension f l ≫= λ bs : list B, Ok (g <$> bs) : result (list C)).
Proof.
  induction l as [|a l IH]; [done|]. simpl.
  destruct (f a) as [b|]; [|done]. simpl. rewrite IH.
  by destruct (comprehension f l).
Qed.

(** [get_embeddings] is its loop over the inputs followed by what it does
    with the tensors of the loop. *)
Lemma get_embeddings_chunks (self : CellEmbedding) X num_cells buffer_size :
  get_embeddings self X num_cells buffer_size
  = (chunks ← embedding_inputs X num_cells buffer_size; embed_chunks self chunks).
Proof.
  unfold get_embeddings, embedding_inputs.
  destruct (resolve_num_cells X num_cells) as [n|]; [|done]. simpl.
  destruct (py_range 0 n buffer_size) as [offsets|]; [|done]. simpl.
  rewrite (comprehension_ext _
             (λ i, profiles ← profiles_at (materialize X n buffer_size) i buffer_size;
                   Ok (forward (model self) profiles)))
    by (intros i; by destruct (use_gpu self)).
  rewrite comprehension_bind_Ok.
  by destruct (comprehension _ offsets).
Qed.
End all_cells.

(** C7, as the code has it: on a matrix of [R] rows, [get_embeddings] with
    [num_cells = -1] returns what it returns with [num_cells = R] and gives
    the encoder the same tensors, for every buffer size; and with a positive
    buffer size both calls process exactly the [R] rows: the tensors given
    to the encoder hold, in order, the rows of the input tensor, and the
    result is the stack of the encoder's outputs on them after the NaN
    test. *)
Theorem get_embeddings_all_cells `{Hnswlib}
    (self : CellEmbedding) (X : matrix) (rows : list row) (buffer_size : Z) :
  matrix_rows X = Some rows →
  get_embeddings self X (-1) buffer_size
  = get_embeddings self X (Z.of_nat (length rows)) buffer_size
  ∧ embedding_inputs X (-1) buffer_size
    = embedding_inputs X (Z.of_nat (length rows)) buffer_size
  ∧ (0 < buffer_size →
     ∃ chunks,
       embedding_inputs X (-1) buffer_size = Ok chunks
       ∧ embedding_inputs X (Z.of_nat (length rows)) buffer_size = Ok chunks
       ∧ Some (concat chunks) = input_tensor X
       ∧ length (concat chunks) = length rows
       ∧ get_embeddings self X (-1) buffer_size = embed_chunks self chunks
       ∧ get_embeddings self X (Z.of_nat (length rows)) buffer_size
         = embed_chunks self chunks).
Proof.
  intros Hrows.
  destruct (resolve_num_cells_all X rows Hrows) as [Hall HR].
  destruct (input_tensor_rows X rows Hrows) as (t & Ht & Hlen).
  split; [|split].
  - unfold get_embeddings. by rewrite Hall, HR.
  - unfold embedding_inputs. by rewrite Hall, HR.
  - intros Hb.
    exists ((λ i, py_slice t i (i + buffer_size))
            <$> range_items 0 (Z.of_nat (length rows)) buffer_size).
    assert (∀ n, resolve_num_cells X n = Ok (Z.of_nat (length rows)) →
              embedding_inputs X n buffer_size
              = Ok ((λ i, py_slice t i (i + buffer_size))
                    <$> range_items 0 (Z.of_nat (length rows)) buffer_size)) as Hin
      by (intros n Hn; apply (embedding_inputs_resolved X t); [lia|done|done]).
    split; [by apply Hin|]. split; [by apply Hin|].
    split; [by rewrite <-Hlen, concat_range_chunks|].
    split; [by rewrite <-Hlen, concat_range_chunks|].
    by rewrite !get_embeddings_chunks, !Hin.
Qed.

Lemma get_embeddings_all_cells_witness :
  matrix_rows (TorchTensor [[Fin 1]; [Fin 2]; [Fin 3]])
  = Some [[Fin 1]; [Fin 2]; [Fin 3]]
  ∧ 0 < 2
  ∧ get_embeddings (cell_embedding_with encoder_first None)
      (TorchTensor [[Fin 1]; [Fin 2]; [Fin 3]]) (-1) 2
    = get_embeddings (cell_embedding_with encoder_first None)
        (TorchTensor [[Fin 1]; [Fin 2]; [Fin 3]]) 3 2
  ∧ ∃ chunks,
      embedding_inputs (TorchTensor [[Fin 1]; [Fin 2]; [Fin 3]]) (-1) 2 = Ok chunks
      ∧ Some (concat chunks) = Some [[Fin 1]; [Fin 2]; [Fin 3]]
      ∧ get_embeddings (cell_embedding_with encoder_first None)
          (TorchTensor [[Fin 1]; [Fin 2]; [Fin 3]]) (-1) 2
        = embed_chunks (cell_embedding_with encoder_first None) chunks.
Proof.
  split; [reflexivity|]. split; [lia|].
  destruct (get_embeddings_all_cells (cell_embedding_with encoder_first None)
              (TorchTensor [[Fin 1]; [Fin 2]; [Fin 3]])
              [[Fin 1]; [Fin 2]; [Fin 3]] 2 eq_refl) as (Hsame & _ & Hchunks).
  split; [exact Hsame|].
  destruct (Hchunks ltac:(lia)) as (chunks & Hrun & _ & Hrows & _ & Hget & _).
  exists chunks. split; [exact Hrun|]. split; [exact Hrows | exact Hget].
Defined.

(** C7 as stated fails for a buffer size that is not positive: with a
    negative one the loop has no iteration on a matrix of three rows, no row
    is processed and both calls raise the empty-input error; with 0 both
    raise the error of [range]. *)
Lemma get_embeddings_negative_buffer :
  matrix_rows (TorchTensor [[Fin 1]; [Fin 2]; [Fin 3]])
  = Some [[Fin 1]; [Fin 2]; [Fin 3]]
  ∧ embedding_inputs (TorchTensor [[Fin 1]; [Fin 2]; [Fin 3]]) (-1) (-2) = Ok []
  ∧ get_embeddings (cell_embedding_with encoder_first None)
      (TorchTensor [[Fin 1]; [Fin 2]; [Fin 3]]) (-1) (-2)
    = Raise (RuntimeError no_valid_cells)
  ∧ get_embeddings (cell_embedding_with encoder_first None)
      (TorchTensor [[Fin 1]; [Fin 2]; [Fin 3]]) (-1) 0
    = Raise (ValueError "range() arg 3 must not be zero").
Proof. repeat split; reflexivity. Qed.

Example get_embeddings_three_rows :
  embedding_inputs (TorchTensor [[Fin 1]; [Fin 2]; [Fin 3]]) (-1) 2
  = Ok [[[Fin 1]; [Fin 2]]; [[Fin 3]]]
  ∧ get_embeddings (cell_embedding_with encoder_first None)
      (TorchTensor [[Fin 1]; [Fin 2]; [Fin 3]]) (-1) 2
    = Ok [[Fin 1]; [Fin 2]; [Fin 3]].
Proof. split; reflexivity. Qed.

(** An entry of a numpy array beyond the float32 range reaches the encoder,
    and here the result, as an infinity. *)
Lemma to_float32_overflow : to_float32 (Fin (IZR (10 ^ 39))) = PosInf.
Proof.
  unfold to_float32, float32_overflow.
  destruct (Rle_dec _ _) as [_|Hlt]; [done|].
  exfalso. apply Hlt. apply IZR_le. by apply Z.leb_le.
Qed.

Example get_embeddings_float32_overflow :
  get_embeddings (cell_embedding_with encoder_first None)
    (NdArray [[Fin (IZR (10 ^ 39))]]) (-1) 10000
  = Ok [[PosInf]]
  ∧ get_embeddings (cell_embedding_with encoder_first None)
      (TorchTensor [[PosInf]]) (-1) 10000
    = Ok [[PosInf]].
Proof.
  split; [|reflexivity].
  rewrite get_embeddings_chunks.
  assert (embedding_inputs (NdArray [[Fin (IZR (10 ^ 39))]]) (-1) 10000
          = Ok [[[to_float32 (Fin (IZR (10 ^ 39)))]]]) as -> by reflexivity.
  by rewrite to_float32_overflow.
Qed.

(** ** The multi-store index mapping *)

Section flatten.
Local Open Scope nat_scope.
Context {B : Type} (f : nat → nat → B).
Implicit Types cs : list nat.

Lemma bind_singleton_fmap {C} (g : nat → C) (l : list nat) :
  (i ← l; [g i]) = g <$> l.
Proof. by induction l; f_equal/=. Qed.

Lemma flattened_snoc cs c :
  flattened f (cs ++ [c]) = flattened f cs ++ (f (length cs) <$> seq 0 c).
Proof.
  unfold flattened. rewrite length_app. simpl.
  rewrite seq_app, bind_app. simpl. f_equal.
  - apply Forall_bind_ext, Forall_forall. intros n [_ Hn]%elem_of_seq.
    by rewrite lookup_total_app_l.
  - rewrite app_nil_r, list_lookup_total_middle by done.
    apply bind_singleton_fmap.
Qed.

Lemma length_flattened cs : length (flattened f cs) = sum_list cs.
Proof.
  induction cs as [|c cs IH] using rev_ind; [done|].
  rewrite flattened_snoc, length_app, length_fmap, length_seq, IH.
  rewrite sum_list_with_app. simpl. lia.
Qed.

(** Every position below the total falls in the range of one store. *)
Lemma lookup_flattened cs idx :
  idx < sum_list cs →
  ∃ n i c, cs !! n = Some c ∧ i < c
    ∧ idx = sum_list (take n cs) + i
    ∧ flattened f cs !! idx = Some (f n i).
Proof.
  induction cs as [|c cs IH] using rev_ind; [simpl; lia|].
  rewrite sum_list_with_app. simpl. intros Hidx.
  rewrite flattened_snoc.
  destruct (decide (idx < sum_list cs)) as [Hlt|Hge].
  - destruct (IH Hlt) as (n & i & c' & Hn & Hi & Hsum & Hlook).
    exists n, i, c'. pose proof (lookup_lt_Some _ _ _ Hn).
    split; [by rewrite lookup_app_l|]. split; [done|].
    split; [by rewrite take_app_le by lia|].
    rewrite lookup_app_l; [done|]. rewrite length_flattened. lia.
  - exists (length cs), (idx - sum_list cs), c.
    split; [by rewrite list_lookup_middle|]. split; [lia|].
    split; [rewrite take_app_length; lia|].
    rewrite lookup_app_r by (rewrite length_flattened; lia).
    rewrite length_flattened, list_lookup_fmap, lookup_seq_lt by lia. done.
Qed.

Lemma sum_list_take_le cs a b : a ≤ b → sum_list (take a cs) ≤ sum_list (take b cs).
Proof.
  intros Hab. replace b with (a + (b - a)) by lia.
  rewrite <-take_take_drop, sum_list_with_app. lia.
Qed.

Lemma sum_list_take_S cs n c :
  cs !! n = Some c → sum_list (take (S n) cs) = sum_list (take n cs) + c.
Proof.
  intros Hn. rewrite (take_S_r _ _ _ Hn), sum_list_with_app. simpl. lia.
Qed.

(** The ranges of two different stores do not meet. *)
Lemma flattened_range_lt cs n n' c i i' :
  cs !! n = Some c → i < c → n < n' →
  sum_list (take n cs) + i < sum_list (take n' cs) + i'.
Proof.
  intros Hn Hi Hlt.
  pose proof (sum_list_take_S cs n c Hn).
  pose proof (sum_list_take_le cs (S n) n'). lia.
Qed.

Lemma flattened_range_unique cs n n' c c' i i' :
  cs !! n = Some c → i < c →
  cs !! n' = Some c' → i' < c' →
  sum_list (take n cs) + i = sum_list (take n' cs) + i' →
  n = n' ∧ i = i'.
Proof.
  intros Hn Hi Hn' Hi' Heq.
  destruct (lt_eq_lt_dec n n') as [[Hlt| ->]|Hgt].
  - pose proof (flattened_range_lt cs n n' c i i' Hn Hi Hlt). lia.
  - split; [done|lia].
  - pose proof (flattened_range_lt cs n' n c' i' i Hn' Hi' Hgt). lia.
Qed.
End flatten.

Section index_mapping.
Local Open Scope nat_scope.
Context {D : Type} `{Store D}.

Lemma data_idx_flattened (data_list : list D) c s :
  data_idx (scDatasetFromList_init data_list c s)
  = flattened (λ n _, n) (shape0 <$> data_list).
Proof. done. Qed.

Lemma cell_idx_flattened (data_list : list D) c s :
  cell_idx (scDatasetFromList_init data_list c s)
  = flattened (λ _ i, i) (shape0 <$> data_list).
Proof. done. Qed.
End index_mapping.

(** C3: for stores with row counts [R_0 .. R_{n-1}] the view has length
    [sum R_i], and so have [data_idx] and [cell_idx]; every global index
    below the total is resolved by them to a store of the list and to a row
    offset below that store's row count, the global index being the rows of
    the stores before it plus the offset; and no other pair of a store and a
    valid offset lies at that global index. *)
Theorem scDatasetFromList_index_mapping {D : Type} `{Store D}
    (stores : list D) (obs_celltype obs_study : string) :
  let ds := scDatasetFromList_init stores obs_celltype obs_study in
  scDatasetFromList_len ds = sum_list (shape0 <$> stores)
  ∧ length (data_idx ds) = scDatasetFromList_len ds
  ∧ length (cell_idx ds) = scDatasetFromList_len ds
  ∧ ∀ idx : nat, (idx < scDatasetFromList_len ds)%nat →
      ∃ (n i : nat) (store : D),
        data_idx ds !! idx = Some n
        ∧ cell_idx ds !! idx = Some i
        ∧ data_list ds !! n = Some store
        ∧ (i < shape0 store)%nat
        ∧ idx = (sum_list (shape0 <$> take n stores) + i)%nat
        ∧ ∀ (n' i' : nat) (store' : D),
            data_list ds !! n' = Some store' →
            (i' < shape0 store')%nat →
            idx = (sum_list (shape0 <$> take n' stores) + i')%nat →
            n' = n ∧ i' = i.
Proof.
  intros ds. subst ds. rewrite data_idx_flattened, cell_idx_flattened.
  unfold scDatasetFromList_len. simpl.
  split; [done|]. split; [apply length_flattened|]. split; [apply length_flattened|].
  intros idx Hidx.
  destruct (lookup_flattened (λ n _, n) _ idx Hidx) as (n & i & c & Hn & Hi & Hsum & Hd).
  destruct (lookup_flattened (λ _ i, i) _ idx Hidx) as (n2 & i2 & c2 & Hn2 & Hi2 & Hsum2 & Hc).
  destruct (flattened_range_unique (shape0 <$> stores) n n2 c c2 i i2) as [<- <-]; [done|done|done|done|lia|].
  apply list_lookup_fmap_Some in Hn as (store & -> & Hstore).
  exists n, i, store. rewrite <-fmap_take in Hsum.
  repeat (split; [done|]).
  intros n' i' store' Hstore' Hi' Hsum'.
  rewrite fmap_take in Hsum, Hsum'.
  destruct (flattened_range_unique (shape0 <$> stores) n' n (shape0 store') (shape0 store) i' i);
    [by rewrite list_lookup_fmap, Hstore' | done
    | by rewrite list_lookup_fmap, Hstore | done | lia | done].
Qed.

Lemma scDatasetFromList_index_mapping_witness :
  let ds := @scDatasetFromList_init nat store_of_size [3; 5; 2]%nat "celltype_name" "study" in
  (7 < scDatasetFromList_len ds)%nat
  ∧ ∃ (n i store : nat),
      data_idx ds !! 7%nat = Some n
      ∧ cell_idx ds !! 7%nat = Some i
      ∧ data_list ds !! n = Some store
      ∧ (i < store)%nat
      ∧ 7%nat = (sum_list (take n [3; 5; 2]) + i)%nat.
Proof.
  split; [simpl; lia|].
  destruct (@scDatasetFromList_index_mapping nat store_of_size [3; 5; 2]%nat
              "celltype_name" "study") as (_ & _ & _ & Hmap).
  destruct (Hmap 7%nat ltac:(simpl; lia)) as (n & i & store & Hd & Hc & Hs & Hi & Hsum & _).
  exists n, i, store. rewrite list_fmap_id in Hsum. done.
Defined.

(** C3, the instance of the specification: with row counts [3; 5; 2], the
    global indices 0-2 go to store 0, 3-7 to store 1 and 8-9 to store 2, each
    with its offset within the store. *)
Example scDatasetFromList_3_5_2 :
  let ds := @scDatasetFromList_init nat store_of_size [3; 5; 2]%nat "celltype_name" "study" in
  scDatasetFromList_len ds = 10%nat
  ∧ data_idx ds = [0; 0; 0; 1; 1; 1; 1; 1; 2; 2]%nat
  ∧ cell_idx ds = [0; 1; 2; 0; 1; 2; 3; 4; 0; 1]%nat.
Proof. repeat split; reflexivity. Qed.

(** ** The sampler weights *)

Section counter.
Local Open Scope nat_scope.

Lemma frequency_cons x a l :
  frequency x (a :: l) = (if decide (a = x) then 1 else 0) + frequency x l.
Proof.
  unfold frequency. rewrite filter_cons. by destruct (decide (a = x)).
Qed.

Lemma Counter_fold (c : gmap string nat) l x :
  Counter_get (foldl (λ c x, <[x := S (default 0 (c !! x))]> c) c l) x
  = Counter_get c x + frequency x l.
Proof.
  revert c. induction l as [|a l IH]; intros c.
  - unfold frequency. simpl. lia.
  - simpl. rewrite IH, frequency_cons. unfold Counter_get.
    destruct (decide (a = x)) as [->|Hne].
    + rewrite lookup_insert_eq. simpl. lia.
    + rewrite lookup_insert_ne by done. lia.
Qed.

(** A counter holds, for each key, the number of its occurrences. *)
Lemma Counter_get_frequency l x : Counter_get (Counter l) x = frequency x l.
Proof. unfold Counter. rewrite Counter_fold. unfold Counter_get. by rewrite lookup_empty. Qed.

Lemma frequency_pos x l : x ∈ l → 0 < frequency x l.
Proof.
  intros Hx. unfold frequency.
  assert (x ∈ filter (λ y, y = x) l) as Hin by by apply list_elem_of_filter.
  destruct (filter _ l); [by apply not_elem_of_nil in Hin | simpl; lia].
Qed.

Lemma comprehension_fmap {A B} (f : A → result B) (g : A → B) (l : list A) :
  (∀ a, a ∈ l → f a = Ok (g a)) → comprehension f l = Ok (g <$> l).
Proof.
  induction l as [|a l IH]; intros Hf; [done|]. simpl.
  rewrite Hf by apply list_elem_of_here. simpl.
  rewrite IH; [done|]. intros b Hb. apply Hf. by apply list_elem_of_further.
Qed.

Lemma range_items_seq (n : nat) : range_items 0 (Z.of_nat n) 1 = Z.of_nat <$> seq 0 n.
Proof.
  unfold range_items, range_length. simpl.
  destruct (Z.ltb_spec 0 (Z.of_nat n)).
  - rewrite Z.div_1_r. replace (Z.to_nat (Z.of_nat n - 0 - 1 + 1)) with n by lia.
    apply list_fmap_ext. intros _ k _. lia.
  - by replace n with 0 by lia.
Qed.

Lemma py_index_lookup {A} (l : list A) (i : nat) x :
  l !! i = Some x → py_index l (Z.of_nat i) = Ok x.
Proof.
  intros Hi. pose proof (lookup_lt_Some _ _ _ Hi). unfold py_index.
  destruct (Z.ltb_spec (Z.of_nat i) 0); [lia|].
  destruct (Z.leb_spec 0 (Z.of_nat i)); [|lia].
  destruct (Z.ltb_spec (Z.of_nat i) (Z.of_nat (length l))); [|lia].
  simpl. by rewrite Nat2Z.id, Hi.
Qed.

Lemma float_truediv_pos (x : R) (n : nat) :
  0 < n → float_truediv x n = Ok (Fin (x / INR n)).
Proof. by destruct n; [lia|]. Qed.

Lemma WeightedRandomSampler_init_pos ws (n : nat) :
  0 < n →
  WeightedRandomSampler_init ws (Z.of_nat n)
  = Ok {| weights := ws; num_samples := Z.of_nat n; replacement := true |}.
Proof.
  intros Hn. unfold WeightedRandomSampler_init.
  by destruct (Z.leb_spec (Z.of_nat n) 0); [lia|].
Qed.
End counter.

Section weights.
Local Open Scope R_scope.

Lemma INR_frequency_pos x l : x ∈ l → 0 < INR (frequency x l).
Proof. intros Hx. apply lt_0_INR. by apply frequency_pos. Qed.

Lemma label_weight_pos x l : x ∈ l → 0 < 1 / INR (frequency x l).
Proof. intros Hx. apply Rdiv_lt_0_compat; [lra | by apply INR_frequency_pos]. Qed.

(** The division by the logarithm of a study count: a count of 1 gives
    [inf], a count of 2 or more the finite positive quotient. *)
Lemma study_weight_once (w : R) :
  0 < w → np_truediv (Fin w) (np_log 1) = PosInf.
Proof.
  intros Hw. unfold np_log, np_truediv. simpl. rewrite ln_1.
  destruct (Req_dec_T 0 0) as [_|?]; [|done].
  destruct (Req_dec_T w 0) as [?|_]; [lra|].
  by destruct (Rlt_dec 0 w).
Qed.

Lemma ln_INR_pos (n : nat) : (2 ≤ n)%nat → 0 < ln (INR n).
Proof.
  intros Hn. rewrite <-ln_1. apply ln_increasing; [lra|].
  apply (lt_INR 1 n). lia.
Qed.

Lemma study_weight_many (w : R) (n : nat) :
  (2 ≤ n)%nat → 0 < w →
  np_truediv (Fin w) (np_log n) = Fin (w / ln (INR n)) ∧ 0 < w / ln (INR n).
Proof.
  intros Hn Hw. pose proof (ln_INR_pos n Hn) as Hln.
  unfold np_log, np_truediv. destruct n as [|n]; [lia|].
  destruct (Req_dec_T (ln (INR (S n))) 0) as [?|_]; [lra|].
  split; [done|]. by apply Rdiv_lt_0_compat.
Qed.

(** The conversion to float32 keeps a finite entry between -2 and 2. *)
Lemma to_float32_small (r : R) : -2 < r < 2 → to_float32 (Fin r) = Fin r.
Proof.
  intros Hr. unfold to_float32.
  assert (2 < float32_overflow) as Hbig by (apply (IZR_lt 2); reflexivity).
  destruct (Rle_dec float32_overflow r) as [?|_]; [lra|].
  by destruct (Rle_dec r (- float32_overflow)) as [?|_]; [lra|].
Qed.

Lemma label_weight_le_1 (n : nat) : (0 < n)%nat → 0 < 1 / INR n <= 1.
Proof.
  intros Hn. assert (1 <= INR n) as Hle by (apply (le_INR 1 n); lia).
  split; [apply Rdiv_lt_0_compat; lra|].
  assert (/ INR n <= / 1) as Hinv by (apply Rinv_le_contravar; lra).
  rewrite Rinv_1 in Hinv. unfold Rdiv. lra.
Qed.

(** The weight of a row keeps its value in a float32 tensor: it is infinite
    or a finite value below 2. *)
Lemma to_float32_label_weight (n : nat) :
  (0 < n)%nat → to_float32 (Fin (1 / INR n)) = Fin (1 / INR n).
Proof. intros Hn. apply to_float32_small. pose proof (label_weight_le_1 n Hn). lra. Qed.

Lemma torch_Tensor_1d_kept (l : list npfloat) :
  (∀ x, x ∈ l → to_float32 x = x) → torch_Tensor_1d l = l.
Proof.
  intros Hl. unfold torch_Tensor_1d. rewrite <-(list_fmap_id l) at 2.
  apply list_fmap_ext. intros i x Hx. apply Hl, list_elem_of_lookup. eauto.
Qed.

Lemma to_float32_study_weight (c n : nat) :
  (0 < c)%nat →
  to_float32 (np_truediv (Fin (1 / INR c)) (np_log n))
  = np_truediv (Fin (1 / INR c)) (np_log n).
Proof.
  intros Hc. pose proof (label_weight_le_1 c Hc) as [Hpos Hle].
  destruct n as [|[|n]].
  - unfold np_log, np_truediv. apply to_float32_small. lra.
  - by rewrite study_weight_once.
  - destruct (study_weight_many (1 / INR c) (S (S n))) as [-> Hw]; [lia|done|].
    apply to_float32_small. split; [lra|].
    assert (/ 2 < ln (INR (S (S n)))) as Hln.
    { eapply Rlt_le_trans; [apply ln_lt_2|].
      destruct (Req_dec_T (INR (S (S n))) 2) as [->|Hne]; [lra|].
      left. apply ln_increasing; [lra|].
      assert (2 <= INR (S (S n))) by (apply (le_INR 2); lia). lra. }
    assert (/ ln (INR (S (S n))) < / / 2) as Hinv
      by (apply Rinv_lt_contravar; [nra | done]).
    rewrite Rinv_inv in Hinv.
    assert (0 < / ln (INR (S (S n)))) by (apply Rinv_0_lt_compat; lra).
    unfold Rdiv in *. nra.
Qed.
End weights.

Section sampler_weights.
Implicit Types labels studies : list string.

(** Without studies: one weight per row, the inverse of the frequency of
    the row's label. *)
Lemma get_sampler_weights_labels labels :
  labels ≠ [] →
  get_sampler_weights labels None
  = Ok {| weights := (λ t, Fin (1 / INR (frequency t labels))) <$> labels;
          num_samples := Z.of_nat (length labels);
          replacement := true |}.
Proof.
  intros Hne. unfold get_sampler_weights.
  rewrite (comprehension_fmap _ (λ t, Fin (1 / INR (frequency t labels)))).
  - unfold mbind, result_bind. cbv beta iota zeta.
    rewrite torch_Tensor_1d_kept.
    + rewrite length_fmap. apply WeightedRandomSampler_init_pos.
      destruct labels; [done | simpl; lia].
    + intros x (t & -> & Ht)%list_elem_of_fmap.
      by apply to_float32_label_weight, frequency_pos.
  - intros t Ht. rewrite Counter_get_frequency.
    apply float_truediv_pos. by apply frequency_pos.
Qed.

(** With studies: one weight per row, the inverse of the frequency of the
    row's label divided, as numpy divides, by the logarithm of the
    frequency of the row's study. *)
Lemma get_sampler_weights_studies labels studies :
  labels ≠ [] →
  length studies = length labels →
  get_sampler_weights labels (Some studies)
  = Ok {| weights :=
            zip_with (λ label study,
                        np_truediv (Fin (1 / INR (frequency label labels)))
                                   (np_log (frequency study studies)))
                     labels studies;
          num_samples := Z.of_nat (length labels);
          replacement := true |}.
Proof.
  intros Hne Hlen. unfold get_sampler_weights.
  rewrite range_items_seq.
  rewrite (comprehension_fmap _
    (λ i : Z, np_truediv (Fin (1 / INR (frequency (labels !!! Z.to_nat i) labels)))
                         (np_log (frequency (studies !!! Z.to_nat i) studies)))).
  - unfold mbind, result_bind. cbv beta iota zeta.
    rewrite torch_Tensor_1d_kept.
    2:{ intros x (i & -> & (k & -> & [_ Hk]%elem_of_seq)%list_elem_of_fmap)%list_elem_of_fmap.
        simpl in Hk. apply to_float32_study_weight, frequency_pos.
        rewrite Nat2Z.id. by apply list_elem_of_lookup_total_2. }
    rewrite !length_fmap, length_seq.
    rewrite WeightedRandomSampler_init_pos by (destruct labels; [done | simpl; lia]).
    do 2 f_equal. apply list_eq. intros i.
    rewrite !list_lookup_fmap, lookup_zip_with.
    destruct (decide (i < length labels)%nat) as [Hi|Hi].
    + rewrite lookup_seq_lt by done. simpl. rewrite Nat2Z.id.
      destruct (lookup_lt_is_Some_2 labels i Hi) as [label Hl].
      destruct (lookup_lt_is_Some_2 studies i ltac:(lia)) as [study Hs].
      rewrite Hl, Hs. simpl.
      by rewrite (list_lookup_total_correct _ _ _ Hl), (list_lookup_total_correct _ _ _ Hs).
    + rewrite lookup_seq_ge by lia. simpl.
      by rewrite (lookup_ge_None_2 labels) by lia.
  - intros i (k & -> & [_ Hk]%elem_of_seq)%list_elem_of_fmap.
    simpl in Hk. rewrite Nat2Z.id.
    destruct (lookup_lt_is_Some_2 labels k Hk) as [label Hl].
    destruct (lookup_lt_is_Some_2 studies k ltac:(lia)) as [study Hs].
    rewrite (py_index_lookup _ _ _ Hl), (py_index_lookup _ _ _ Hs). simpl.
    rewrite Counter_get_frequency, Counter_get_frequency.
    rewrite float_truediv_pos
      by (apply frequency_pos, list_elem_of_lookup; eauto).
    simpl.
    by rewrite (list_lookup_total_correct _ _ _ Hl), (list_lookup_total_correct _ _ _ Hs).
Qed.

(** The weight of a row without studies is finite and positive. *)
Lemma sampler_weight_labels_row labels i label s :
  get_sampler_weights labels None = Ok s →
  labels !! i = Some label →
  weights s !! i = Some (Fin (1 / INR (frequency label labels)))
  ∧ (0 < 1 / INR (frequency label labels))%R.
Proof.
  intros Hs Hl.
  rewrite get_sampler_weights_labels in Hs by (by intros ->).
  simplify_eq/=. rewrite list_lookup_fmap, Hl. split; [done|].
  apply label_weight_pos, list_elem_of_lookup. eauto.
Qed.

(** The weight of a row with studies, by the frequency of its study: [inf]
    for a study that occurs once, the finite positive quotient for a study
    that occurs twice or more. *)
Lemma sampler_weight_studies_row labels studies i label study s :
  length studies = length labels →
  get_sampler_weights labels (Some studies) = Ok s →
  labels !! i = Some label →
  studies !! i = Some study →
  (frequency study studies = 1%nat → weights s !! i = Some PosInf)
  ∧ ((2 ≤ frequency study studies)%nat →
     weights s !! i
     = Some (Fin (1 / INR (frequency label labels) / ln (INR (frequency study studies))))
     ∧ (0 < 1 / INR (frequency label labels) / ln (INR (frequency study studies)))%R).
Proof.
  intros Hlen Hs Hl Hst.
  rewrite get_sampler_weights_studies in Hs by (done || by intros ->).
  simplify_eq/=. rewrite lookup_zip_with, Hl, Hst. simpl.
  assert (0 < 1 / INR (frequency label labels))%R as Hpos
    by (apply label_weight_pos, list_elem_of_lookup; eauto).
  split.
  - intros Honce. by rewrite Honce, study_weight_once.
  - intros Hmany.
    destruct (study_weight_many _ _ Hmany Hpos) as [-> ?]. done.
Qed.
End sampler_weights.

(** C2, at the spec's labels ["a"; "a"; "b"] with the studies
    ["s1"; "s1"; "s2"]: the two rows of the study seen twice get the weight
    [1 / 2 / ln 2]; the row of the study seen once gets the weight
    [1 / 1 / ln 1], a division by zero, which is [inf] and no finite real.
    Without studies the weights of the same rows are [1/2], [1/2] and [1]. *)
Theorem get_sampler_weights_single_study :
  get_sampler_weights ["a"; "a"; "b"] (Some ["s1"; "s1"; "s2"])
  = Ok {| weights := [Fin (1 / 2 / ln 2); Fin (1 / 2 / ln 2); PosInf];
          num_samples := 3;
          replacement := true |}
  ∧ isfinite PosInf = false
  ∧ get_sampler_weights ["a"; "a"; "b"] None
    = Ok {| weights := [Fin (1 / 2); Fin (1 / 2); Fin (1 / 1)];
            num_samples := 3;
            replacement := true |}.
Proof.
  split; [|split; [done|]].
  - rewrite get_sampler_weights_studies by done.
    do 2 f_equal. cbn [zip_with].
    change (frequency "a" ["a"; "a"; "b"]) with 2%nat.
    change (frequency "b" ["a"; "a"; "b"]) with 1%nat.
    change (frequency "s1" ["s1"; "s1"; "s2"]) with 2%nat.
    change (frequency "s2" ["s1"; "s1"; "s2"]) with 1%nat.
    rewrite study_weight_once by (simpl; lra).
    destruct (study_weight_many (1 / INR 2) 2) as [-> _]; [lia | simpl; lra |].
    by replace (INR 2) with 2%R by (simpl; lra).
  - rewrite get_sampler_weights_labels by done. reflexivity.
Qed.

(** ** The two-way weights *)

(** Membership in a list given by its items. *)
Ltac elem_of_list :=
  repeat first [apply list_elem_of_here | apply list_elem_of_further].

Section two_way.
Implicit Types vec : list string.

Lemma elem_of_axis_labels vec x : x ∈ axis_labels vec ↔ x ∈ vec.
Proof.
  unfold axis_labels. rewrite merge_sort_Permutation. apply elem_of_remove_dups.
Qed.

Lemma NoDup_axis_labels vec : NoDup (axis_labels vec).
Proof.
  unfold axis_labels. rewrite merge_sort_Permutation. apply NoDup_remove_dups.
Qed.

(** The entries of the unstacked frame: one per column label and row
    label, keyed in that order. *)
Lemma elem_of_unstacked {A} (df : DataFrame A) (p : string * string * A) :
  p ∈ (c ← columns df; r ← index df; [((c, r), at_ df r c)])
  ↔ ∃ c r, p = ((c, r), at_ df r c) ∧ c ∈ columns df ∧ r ∈ index df.
Proof.
  rewrite list_elem_of_bind. split.
  - intros (c & (r & ->%list_elem_of_singleton & Hr)%list_elem_of_bind & Hc). eauto.
  - intros (c & r & -> & Hc & Hr). exists c. split; [|done].
    apply list_elem_of_bind. exists r. split; [|done]. by apply list_elem_of_singleton.
Qed.

Lemma unstack_to_dict_Some {A} (df : DataFrame A) c r :
  c ∈ columns df → r ∈ index df →
  unstack_to_dict df !! (c, r) = Some (at_ df r c).
Proof.
  intros Hc Hr. unfold unstack_to_dict. apply elem_of_list_to_map_1'.
  - intros y (c' & r' & ? & _)%elem_of_unstacked. by simplify_eq.
  - apply elem_of_unstacked. eauto.
Qed.

Lemma unstack_to_dict_None {A} (df : DataFrame A) c r :
  ¬ (c ∈ columns df ∧ r ∈ index df) →
  unstack_to_dict df !! (c, r) = None.
Proof.
  intros Hnot. unfold unstack_to_dict. apply not_elem_of_list_to_map_1.
  intros ([k y] & Hk & (c' & r' & ? & Hc & Hr)%elem_of_unstacked)%list_elem_of_fmap.
  simplify_eq/=. by apply Hnot.
Qed.

(** The entry of [(1 / counts).replace(np.inf, 0)] for a count [n]. *)
Lemma reciprocal_replaced (n : nat) :
  match np_truediv (Fin 1) (Fin (INR n)) with PosInf => Fin 0 | x => x end
  = if decide (n = 0%nat) then Fin 0 else Fin (1 / INR n).
Proof.
  unfold np_truediv. destruct (decide (n = 0%nat)) as [->|Hn].
  - simpl. destruct (Req_dec_T 0 0) as [_|?]; [|done].
    destruct (Req_dec_T 1 0) as [?|_]; [lra|].
    destruct (Rlt_dec 0 1) as [_|?]; [done|lra].
  - destruct (Req_dec_T (INR n) 0) as [Hz|_]; [|done].
    by apply (INR_eq n 0) in Hz.
Qed.

(** The mapping returned for sequences of equal length, entry by entry. *)
Lemma two_way_weighting_lookup vec1 vec2 :
  length vec1 = length vec2 →
  ∃ m, two_way_weighting vec1 vec2 = Ok m
    ∧ (∀ c1 c2, c1 ∈ vec1 → c2 ∈ vec2 →
         m !! (c2, c1)
         = Some (if decide (cooccurrences vec1 vec2 c1 c2 = 0%nat) then Fin 0
                 else Fin (1 / INR (cooccurrences vec1 vec2 c1 c2))))
    ∧ (∀ c1 c2, ¬ (c1 ∈ vec1 ∧ c2 ∈ vec2) → m !! (c2, c1) = None).
Proof.
  intros Hlen. unfold two_way_weighting, crosstab.
  rewrite bool_decide_eq_true_2 by done. simpl.
  eexists. split; [done|]. split.
  - intros c1 c2 H1 H2.
    rewrite unstack_to_dict_Some by (simpl; by apply elem_of_axis_labels).
    simpl. by rewrite reciprocal_replaced.
  - intros c1 c2 Hnot. apply unstack_to_dict_None. simpl.
    rewrite !elem_of_axis_labels. tauto.
Qed.
End two_way.

(** C10, as the code has it: for two sequences of equal length the mapping
    is keyed by the value of the second sequence first and the value of the
    first sequence second; at the key of a pair of observed values it holds
    1 over the number of rows where the pair occurs when that number is
    positive, and 0, never infinity, when the pair does not occur. *)
Theorem two_way_weighting_weights (vec1 vec2 : list string) :
  length vec1 = length vec2 →
  ∃ m, two_way_weighting vec1 vec2 = Ok m
    ∧ ∀ c1 c2, c1 ∈ vec1 → c2 ∈ vec2 →
        ((0 < cooccurrences vec1 vec2 c1 c2)%nat →
         m !! (c2, c1) = Some (Fin (1 / INR (cooccurrences vec1 vec2 c1 c2))))
        ∧ (cooccurrences vec1 vec2 c1 c2 = 0%nat → m !! (c2, c1) = Some (Fin 0))
        ∧ m !! (c2, c1) ≠ Some PosInf
        ∧ m !! (c2, c1) ≠ Some NegInf.
Proof.
  intros Hlen.
  destruct (two_way_weighting_lookup vec1 vec2 Hlen) as (m & Hm & Hin & _).
  exists m. split; [done|]. intros c1 c2 H1 H2. rewrite (Hin c1 c2 H1 H2).
  destruct (decide (cooccurrences vec1 vec2 c1 c2 = 0%nat)) as [Hz|Hnz].
  - split; [lia|]. done.
  - split; [done|]. split; [by intros ?|]. done.
Qed.

Lemma two_way_weighting_weights_witness :
  length ["a"; "a"; "b"] = length ["x"; "y"; "x"]
  ∧ ∃ m, two_way_weighting ["a"; "a"; "b"] ["x"; "y"; "x"] = Ok m
      ∧ m !! ("x", "a") = Some (Fin (1 / INR 1))
      ∧ m !! ("y", "b") = Some (Fin 0).
Proof.
  split; [reflexivity|].
  destruct (two_way_weighting_weights ["a"; "a"; "b"] ["x"; "y"; "x"] eq_refl)
    as (m & Hm & Hpairs).
  exists m. split; [exact Hm|]. split.
  - apply (Hpairs "a" "x"); [elem_of_list | elem_of_list | vm_compute; lia].
  - apply (Hpairs "b" "y"); [elem_of_list | elem_of_list | reflexivity].
Defined.

(** C10 as stated fails on the order of the key: for the sequences ["a"; "a"]
    and ["x"; "y"] the pair of "a" and "x" occurs in one row, yet the mapping
    has no entry at ("a", "x"); its weight is at ("x", "a"). *)
Lemma two_way_weighting_key_order :
  ∃ m, two_way_weighting ["a"; "a"] ["x"; "y"] = Ok m
    ∧ cooccurrences ["a"; "a"] ["x"; "y"] "a" "x" = 1%nat
    ∧ m !! ("a", "x") = None
    ∧ m !! ("x", "a") = Some (Fin (1 / 1)).
Proof.
  destruct (two_way_weighting_lookup ["a"; "a"] ["x"; "y"] eq_refl)
    as (m & Hm & Hin & Hout).
  exists m. split; [exact Hm|]. split; [reflexivity|]. split.
  - apply (Hout "x" "a"). intros [Hx _].
    apply elem_of_cons in Hx as [?|Hx]; [done|].
    apply elem_of_cons in Hx as [?|Hx]; [done|].
    by apply elem_of_nil in Hx.
  - rewrite (Hin "a" "x") by elem_of_list. reflexivity.
Qed.

(** ** More on the batched embedder *)

Section embedder_loop.
Context `{Hnswlib}.

(** The loop of a positive request with a positive buffer starts at
    offset 0. *)
Lemma range_items_first (n b : Z) :
  0 < n → 0 < b → ∃ rest, range_items 0 n b = 0 :: rest.
Proof.
  intros Hn Hb. unfold range_items, range_length.
  destruct (Z.ltb_spec 0 b) as [_|?]; [|lia].
  destruct (Z.ltb_spec 0 n) as [_|?]; [|lia].
  pose proof (Z.div_pos (n - 0 - 1) b ltac:(lia) Hb).
  destruct (Z.to_nat ((n - 0 - 1) / b + 1)) as [|k] eqn:Hk; [lia|].
  simpl. eauto.
Qed.



End embedder_loop.

(** X1: on an object that is no numpy array, torch tensor or CSR matrix,
    a positive request with a positive buffer size raises the runtime error
    "Unknown data type ..." naming the type, at the first chunk. *)
Theorem get_embeddings_unknown_type `{Hnswlib}
    (self : CellEmbedding) (ty : string) (shape : option Z) (num_cells n b : Z) :
  resolve_num_cells (OtherObject ty shape) num_cells = Ok n →
  0 < n → 0 < b →
  get_embeddings self (OtherObject ty shape) num_cells b
  = Raise (RuntimeError ("Unknown data type " ++ ty ++ ".")).
Proof.
  intros Hres Hn Hb. unfold get_embeddings. rewrite Hres. simpl.
  unfold py_range. rewrite (proj2 (Z.eqb_neq b 0) ltac:(lia)). simpl.
  destruct (range_items_first n b Hn Hb) as [rest ->]. done.
Qed.

Lemma get_embeddings_unknown_type_witness :
  resolve_num_cells (OtherObject "<class 'list'>" None) 3 = Ok 3
  ∧ 0 < 3 ∧ 0 < 10000
  ∧ get_embeddings (cell_embedding_with encoder_first None)
      (OtherObject "<class 'list'>" None) 3 10000
    = Raise (RuntimeError "Unknown data type <class 'list'>.").
Proof.
  split; [reflexivity|]. split; [lia|]. split; [lia|].
  apply (get_embeddings_unknown_type (cell_embedding_with encoder_first None)
           "<class 'list'>" None 3 3 10000); [reflexivity | lia | lia].
Defined.

(** X2: for a positive request [num_cells] and a positive buffer size
    [get_embeddings] runs the encoder on the first [ceil(num_cells /
    buffer_size) * buffer_size] rows of the matrix, as far as it has them:
    the request is rounded up to whole buffers.  The tensors of its loop
    hold, in order, these rows of the input tensor, and its result is the
    stack of the encoder's outputs on them after the NaN test.  A request of
    at most one buffer embeds the whole first buffer, and a request of at
    least the row count embeds every row. *)
Theorem embedding_inputs_whole_buffers `{Hnswlib}
    (self : CellEmbedding) (X : matrix) (t : tensor) (num_cells buffer_size : Z) :
  input_tensor X = Some t →
  0 < num_cells → 0 < buffer_size →
  ∃ chunks, embedding_inputs X num_cells buffer_size = Ok chunks
    ∧ get_embeddings self X num_cells buffer_size = embed_chunks self chunks
    ∧ concat chunks
      = take (Z.to_nat (((num_cells - 1) / buffer_size + 1) * buffer_size)) t
    ∧ (num_cells ≤ buffer_size → concat chunks = take (Z.to_nat buffer_size) t)
    ∧ (Z.of_nat (length t) ≤ num_cells → concat chunks = t).
Proof.
  intros Ht Hn Hb.
  assert (resolve_num_cells X num_cells = Ok num_cells) as Hres.
  { unfold resolve_num_cells. by destruct (Z.eqb_spec num_cells (-1)); [lia|]. }
  pose proof (Z.div_pos (num_cells - 1) buffer_size ltac:(lia) Hb) as Hq.
  pose proof (Z.mul_succ_div_gt (num_cells - 1) buffer_size Hb) as Hgt.
  assert (concat ((λ i, py_slice t i (i + buffer_size))
                  <$> range_items 0 num_cells buffer_size)
          = take (Z.to_nat (((num_cells - 1) / buffer_size + 1) * buffer_size)) t)
    as Hcat.
  { unfold range_items. rewrite concat_chunks by done. f_equal.
    unfold range_length.
    destruct (Z.ltb_spec 0 buffer_size) as [_|?]; [|lia].
    destruct (Z.ltb_spec 0 num_cells) as [_|?]; [|lia].
    rewrite Z.sub_0_r. lia. }
  pose proof (embedding_inputs_resolved X t num_cells num_cells buffer_size
                ltac:(lia) Ht Hres) as Hin.
  eexists. split; [exact Hin|].
  split; [by rewrite get_embeddings_chunks, Hin|].
  split; [done|]. rewrite Hcat. split.
  - intros Hle. rewrite Z.div_small by lia. f_equal. lia.
  - intros Hall. apply take_ge. nia.
Qed.

Lemma embedding_inputs_whole_buffers_witness :
  input_tensor (TorchTensor [[Fin 1]; [Fin 2]; [Fin 3]; [Fin 4]; [Fin 5]])
  = Some [[Fin 1]; [Fin 2]; [Fin 3]; [Fin 4]; [Fin 5]]
  ∧ 0 < 1 ∧ 0 < 2
  ∧ ∃ chunks,
      embedding_inputs (TorchTensor [[Fin 1]; [Fin 2]; [Fin 3]; [Fin 4]; [Fin 5]]) 1 2
      = Ok chunks
      ∧ get_embeddings (cell_embedding_with encoder_first None)
          (TorchTensor [[Fin 1]; [Fin 2]; [Fin 3]; [Fin 4]; [Fin 5]]) 1 2
        = embed_chunks (cell_embedding_with encoder_first None) chunks
      ∧ concat chunks = [[Fin 1]; [Fin 2]].
Proof.
  split; [reflexivity|]. split; [lia|]. split; [lia|].
  destruct (embedding_inputs_whole_buffers (cell_embedding_with encoder_first None)
              (TorchTensor [[Fin 1]; [Fin 2]; [Fin 3]; [Fin 4]; [Fin 5]])
              [[Fin 1]; [Fin 2]; [Fin 3]; [Fin 4]; [Fin 5]] 1 2
              eq_refl ltac:(lia) ltac:(lia))
    as (chunks & Hrun & Hget & _ & Hbuf & _).
  exists chunks. split; [exact Hrun|]. split; [exact Hget|]. exact (Hbuf ltac:(lia)).
Defined.



(** ** More on the kNN index adapter *)

Section knn_load.
Context `{Hnswlib} `{BColors}.

Lemma path_isfile_content (files : gmap string fsnode) path content :
  files !! path = Some (RegularFile content) → path_isfile files path = true.
Proof. intros Hfile. unfold path_isfile. by rewrite Hfile. Qed.

(** The whole effect of a load from a regular file that reads as an index. *)
Lemma load_knn_index_readable (σ : state) knn_file content d :
  fs σ !! knn_file = Some (RegularFile content) →
  read_index_file content (enc_latent_dim (model (self σ))) = Ok d →
  load_knn_index knn_file σ
  = (Ok (),
     {| self := {| model_path := model_path (self σ); use_gpu := use_gpu (self σ);
                   gene_order := gene_order (self σ); model := model (self σ);
                   knn := Some {| space := "cosine";
                                  dim := enc_latent_dim (model (self σ));
                                  ef := 10; data := Some d |} |};
        fs := fs σ; stdout := stdout σ |}).
Proof.
  intros Hfile Hread. unfold load_knn_index, mbind, M_bind, isfile.
  rewrite (path_isfile_content _ _ _ Hfile). simpl.
  unfold knn_load_index. simpl. rewrite Hfile. simpl. by rewrite Hread.
Qed.

(** The whole effect of a load from a regular file that does not read as an
    index. *)
Lemma load_knn_index_unreadable (σ : state) knn_file content e :
  fs σ !! knn_file = Some (RegularFile content) →
  read_index_file content (enc_latent_dim (model (self σ))) = Raise e →
  load_knn_index knn_file σ
  = (Raise e,
     {| self := {| model_path := model_path (self σ); use_gpu := use_gpu (self σ);
                   gene_order := gene_order (self σ); model := model (self σ);
                   knn := Some (Index_new "cosine" (enc_latent_dim (model (self σ)))) |};
        fs := fs σ; stdout := stdout σ |}).
Proof.
  intros Hfile Hread. unfold load_knn_index, mbind, M_bind, isfile.
  rewrite (path_isfile_content _ _ _ Hfile). simpl.
  unfold knn_load_index. simpl. rewrite Hfile. simpl. by rewrite Hread.
Qed.
End knn_load.

(** X4: a load from a regular file that reads as an index replaces whatever
    [self.knn] held by a cosine index of the encoder's latent dimension over
    the data of the file, prints nothing, and a query that follows returns
    the search of that data with the [ef] of the query when the index takes
    that [ef] (0 ≤ ef < 2^64), and raises the [TypeError] of [set_ef]
    otherwise. *)
Theorem load_knn_index_then_query `{Hnswlib} `{BColors}
    (σ : state) (knn_file content : string) (d : index_data)
    (embeddings : tensor) (k e : Z) :
  fs σ !! knn_file = Some (RegularFile content) →
  read_index_file content (enc_latent_dim (model (self σ))) = Ok d →
  ∃ σ' index, load_knn_index knn_file σ = (Ok (), σ')
    ∧ knn (self σ') = Some index
    ∧ space index = "cosine"
    ∧ dim index = enc_latent_dim (model (self σ))
    ∧ data index = Some d
    ∧ stdout σ' = stdout σ
    ∧ (get_nearest_neighbors embeddings k e σ').1
      = if is_size_t e then search_knn d e embeddings k
        else Raise (TypeError (set_ef_incompatible "cosine"
                                 (enc_latent_dim (model (self σ))) e)).
Proof.
  intros Hfile Hread. eexists _, _.
  split; [by apply (load_knn_index_readable σ knn_file content d)|].
  split; [done|]. repeat (split; [done|]).
  destruct (is_size_t e) eqn:He.
  - by erewrite get_nearest_neighbors_set by (done || by apply set_ef_size_t).
  - by erewrite get_nearest_neighbors_refused by (done || by apply set_ef_refused).
Qed.

Lemma load_knn_index_then_query_witness :
  let σ := {| self := cell_embedding_with encoder_first None;
              fs := {[ "/opt/data/knn.bin" := RegularFile "index" ]};
              stdout := [] |} in
  fs σ !! "/opt/data/knn.bin" = Some (RegularFile "index")
  ∧ @read_index_file hnswlib_stub "index" 1 = Ok ()
  ∧ ∃ σ' index, @load_knn_index hnswlib_stub bcolors_ansi "/opt/data/knn.bin" σ = (Ok (), σ')
      ∧ knn (self σ') = Some index
      ∧ space index = "cosine"
      ∧ (@get_nearest_neighbors hnswlib_stub [[Fin 1]] 50 100 σ').1
        = @search_knn hnswlib_stub () 100 [[Fin 1]] 50.
Proof.
  intros σ. split; [reflexivity|]. split; [reflexivity|].
  destruct (@load_knn_index_then_query hnswlib_stub bcolors_ansi σ
              "/opt/data/knn.bin" "index" () [[Fin 1]] 50 100 eq_refl eq_refl)
    as (σ' & index & Hrun & Hknn & Hspace & _ & _ & _ & Hquery).
  exists σ', index. split; [exact Hrun|]. split; [exact Hknn|].
  split; [exact Hspace | exact Hquery].
Defined.

(** X5: a load from a regular file that does not read as an index raises
    the library's exception after [self.knn] was bound to a new index without
    data: an index held before is lost, and [self.knn] is not left unset,
    so the guard of a query that follows does not raise the not-initialized
    error but passes the query on to the index without data: [set_ef] on
    that index, then [knn_query] on it. *)
Theorem load_knn_index_unreadable_file `{Hnswlib} `{BColors}
    (σ : state) (knn_file content : string) (err : exn)
    (embeddings : tensor) (k e : Z) :
  fs σ !! knn_file = Some (RegularFile content) →
  read_index_file content (enc_latent_dim (model (self σ))) = Raise err →
  ∃ σ', load_knn_index knn_file σ = (Raise err, σ')
    ∧ knn (self σ') = Some (Index_new "cosine" (enc_latent_dim (model (self σ))))
    ∧ (get_nearest_neighbors embeddings k e σ').1
      = (index ← set_ef (Index_new "cosine" (enc_latent_dim (model (self σ)))) e;
         knn_query index embeddings k).
Proof.
  intros Hfile Hread. eexists.
  split; [by apply (load_knn_index_unreadable σ knn_file content err)|].
  split; [done|].
  destruct (set_ef (Index_new "cosine" (enc_latent_dim (model (self σ)))) e)
    as [index|err'] eqn:Hef.
  - by erewrite get_nearest_neighbors_set by done.
  - by erewrite get_nearest_neighbors_refused by done.
Qed.

Lemma load_knn_index_unreadable_file_witness :
  let σ := state_strict in
  fs σ !! "/opt/data/knn.bin" = Some (RegularFile "")
  ∧ @read_index_file hnswlib_strict "" 1 = Raise (RuntimeError "Index seems to be corrupted")
  ∧ ∃ σ', @load_knn_index hnswlib_strict bcolors_ansi "/opt/data/knn.bin" σ
          = (Raise (RuntimeError "Index seems to be corrupted"), σ')
      ∧ knn (self σ') = Some (Index_new "cosine" 1).
Proof.
  intros σ. split; [reflexivity|]. split; [reflexivity|].
  destruct (@load_knn_index_unreadable_file hnswlib_strict bcolors_ansi σ
              "/opt/data/knn.bin" "" (RuntimeError "Index seems to be corrupted")
              [[Fin 1]] 50 100 eq_refl eq_refl)
    as (σ' & Hrun & Hknn & _).
  exists σ'. split; [exact Hrun | exact Hknn].
Defined.

(** X6: the result of a query does not depend on the [ef] of the queries
    made before it: each call writes its own [ef] to the index before the
    search. *)
Theorem get_nearest_neighbors_ef_per_call `{Hnswlib}
    (σ : state) (embeddings0 embeddings : tensor) (k0 e0 k e : Z) :
  (get_nearest_neighbors embeddings k e
     (get_nearest_neighbors embeddings0 k0 e0 σ).2).1
  = (get_nearest_neighbors embeddings k e σ).1.
Proof.
  destruct (knn (self σ)) as [index|] eqn:Hknn.
  - destruct (is_size_t e0) eqn:He0.
    + rewrite (get_nearest_neighbors_set σ index _ embeddings0 k0 e0 Hknn
                 (set_ef_size_t index e0 He0)).
      destruct (is_size_t e) eqn:He.
      * rewrite (get_nearest_neighbors_set σ index _ embeddings k e Hknn
                   (set_ef_size_t index e He)).
        by erewrite get_nearest_neighbors_set by (done || by apply set_ef_size_t).
      * rewrite (get_nearest_neighbors_refused σ index embeddings k e _ Hknn
                   (set_ef_refused index e He)).
        by erewrite get_nearest_neighbors_refused by (done || by apply set_ef_refused).
    + by rewrite (get_nearest_neighbors_refused σ index embeddings0 k0 e0 _ Hknn
                    (set_ef_refused index e0 He0)).
  - rewrite (get_nearest_neighbors_unset σ embeddings0) by done. done.
Qed.

(** ** Access to the multi-store view *)

Section py_index_facts.
Context {A : Type}.
Implicit Types l : list A.

Lemma py_index_out_of_range l (i : Z) :
  Z.of_nat (length l) ≤ i ∨ i < - Z.of_nat (length l) →
  py_index l i = Raise (IndexError "list index out of range").
Proof.
  intros Hi. unfold py_index.
  destruct (Z.ltb_spec i 0).
  - destruct (Z.leb_spec 0 (i + Z.of_nat (length l))); [|done].
    destruct (Z.ltb_spec (i + Z.of_nat (length l)) (Z.of_nat (length l))); [lia|done].
  - destruct (Z.leb_spec 0 i); [|done].
    destruct (Z.ltb_spec i (Z.of_nat (length l))); [lia|done].
Qed.

Lemma py_index_negative l (i : Z) :
  - Z.of_nat (length l) ≤ i < 0 →
  py_index l i = py_index l (i + Z.of_nat (length l)).
Proof.
  intros Hi. unfold py_index.
  destruct (Z.ltb_spec i 0); [|lia].
  by destruct (Z.ltb_spec (i + Z.of_nat (length l)) 0); [lia|].
Qed.
End py_index_facts.

Section getitem.
Local Open Scope nat_scope.
Context {D : Type} `{Store D}.

(** The resolution of a global index by [data_idx] and [cell_idx]. *)
Lemma scDatasetFromList_resolve (stores : list D) c s (idx : nat) :
  idx < sum_list (shape0 <$> stores) →
  ∃ n i store,
    data_idx (scDatasetFromList_init stores c s) !! idx = Some n
    ∧ cell_idx (scDatasetFromList_init stores c s) !! idx = Some i
    ∧ stores !! n = Some store
    ∧ i < shape0 store
    ∧ idx = sum_list (shape0 <$> take n stores) + i.
Proof.
  intros Hidx. rewrite data_idx_flattened, cell_idx_flattened.
  destruct (lookup_flattened (λ n _, n) _ idx Hidx) as (n & i & c1 & Hn & Hi & Hsum & Hd).
  destruct (lookup_flattened (λ _ i, i) _ idx Hidx) as (n2 & i2 & c2 & Hn2 & Hi2 & Hsum2 & Hc).
  destruct (flattened_range_unique (shape0 <$> stores) n n2 c1 c2 i i2) as [<- <-];
    [done|done|done|done|lia|].
  apply list_lookup_fmap_Some in Hn as (store & -> & Hstore).
  exists n, i, store. by rewrite fmap_take.
Qed.

Lemma length_data_idx (stores : list D) c s :
  length (data_idx (scDatasetFromList_init stores c s)) = sum_list (shape0 <$> stores).
Proof. rewrite data_idx_flattened. apply length_flattened. Qed.

Lemma length_cell_idx (stores : list D) c s :
  length (cell_idx (scDatasetFromList_init stores c s)) = sum_list (shape0 <$> stores).
Proof. rewrite cell_idx_flattened. apply length_flattened. Qed.
End getitem.

(** X7: for a global index below the length of the view, [__getitem__]
    returns the row, the cell type and the study of the one store and local
    row that the index stands for: the row [i] of store [n], where the index
    is the number of rows of the stores before [n] plus [i]. *)
Theorem scDatasetFromList_getitem_row {D : Type} `{Store D}
    (stores : list D) (obs_celltype obs_study : string) (idx : nat) :
  let ds := scDatasetFromList_init stores obs_celltype obs_study in
  (idx < scDatasetFromList_len ds)%nat →
  ∃ (n i : nat) (store : D),
    stores !! n = Some store
    ∧ (i < shape0 store)%nat
    ∧ idx = (sum_list (shape0 <$> take n stores) + i)%nat
    ∧ scDatasetFromList_getitem ds (Z.of_nat idx)
      = (cell ← get_cell store i;
         label ← py_index (get_obs store obs_celltype) (Z.of_nat i);
         study ← py_index (get_obs store obs_study) (Z.of_nat i);
         Ok (cell, label, study)).
Proof.
  intros ds Hidx. subst ds. unfold scDatasetFromList_len in Hidx. simpl in Hidx.
  destruct (scDatasetFromList_resolve stores obs_celltype obs_study idx Hidx)
    as (n & i & store & Hd & Hc & Hstore & Hi & Hsum).
  exists n, i, store. repeat (split; [done|]).
  unfold scDatasetFromList_getitem.
  rewrite (py_index_lookup _ _ _ Hd), (py_index_lookup _ _ _ Hc). simpl.
  by rewrite (py_index_lookup _ _ _ Hstore).
Qed.

Lemma scDatasetFromList_getitem_row_witness :
  let ds := @scDatasetFromList_init nat store_of_size [3; 5; 2]%nat "celltype_name" "study" in
  (7 < scDatasetFromList_len ds)%nat
  ∧ ∃ (n i store : nat),
      [3; 5; 2]%nat !! n = Some store
      ∧ (i < store)%nat
      ∧ 7%nat = (sum_list (take n [3; 5; 2]) + i)%nat.
Proof.
  split; [simpl; lia|].
  destruct (@scDatasetFromList_getitem_row nat store_of_size [3; 5; 2]%nat
              "celltype_name" "study" 7%nat ltac:(simpl; lia))
    as (n & i & store & Hs & Hi & Hsum & _).
  exists n, i, store. rewrite list_fmap_id in Hsum. done.
Defined.

(** X8: [__getitem__] follows Python's list indexing on the global index:
    an index at or above the length of the view, or below minus the length,
    raises [IndexError], and a negative index within range reads the item
    that many places from the end. *)
Theorem scDatasetFromList_getitem_bounds {D : Type} `{Store D}
    (stores : list D) (obs_celltype obs_study : string) (idx : Z) :
  let ds := scDatasetFromList_init stores obs_celltype obs_study in
  let len := Z.of_nat (scDatasetFromList_len ds) in
  (len ≤ idx ∨ idx < - len →
   scDatasetFromList_getitem ds idx = Raise (IndexError "list index out of range"))
  ∧ (- len ≤ idx < 0 →
     scDatasetFromList_getitem ds idx = scDatasetFromList_getitem ds (idx + len)).
Proof.
  intros ds len. subst ds len. unfold scDatasetFromList_len.
  change (ncells (scDatasetFromList_init stores obs_celltype obs_study))
    with (sum_list (shape0 <$> stores)).
  split.
  - intros Hout. unfold scDatasetFromList_getitem.
    rewrite (py_index_out_of_range (data_idx _)) by (by rewrite length_data_idx).
    reflexivity.
  - intros Hneg. unfold scDatasetFromList_getitem.
    rewrite (py_index_negative (data_idx _)) by (by rewrite length_data_idx).
    rewrite (py_index_negative (cell_idx _)) by (by rewrite length_cell_idx).
    by rewrite length_data_idx, length_cell_idx.
Qed.

Lemma scDatasetFromList_getitem_bounds_witness :
  let ds := @scDatasetFromList_init nat store_of_size [3; 5; 2]%nat "celltype_name" "study" in
  (Z.of_nat (scDatasetFromList_len ds) ≤ 10
   ∧ @scDatasetFromList_getitem nat store_of_size ds 10
     = Raise (IndexError "list index out of range"))
  ∧ (- Z.of_nat (scDatasetFromList_len ds) ≤ -1 < 0
     ∧ @scDatasetFromList_getitem nat store_of_size ds (-1)
       = @scDatasetFromList_getitem nat store_of_size ds 9).
Proof.
  destruct (@scDatasetFromList_getitem_bounds nat store_of_size [3; 5; 2]%nat
              "celltype_name" "study" 10) as [Hout _].
  destruct (@scDatasetFromList_getitem_bounds nat store_of_size [3; 5; 2]%nat
              "celltype_name" "study" (-1)) as [_ Hneg].
  split.
  - split; [simpl; lia|]. apply Hout. simpl. lia.
  - split; [simpl; lia|]. apply Hneg. simpl. lia.
Defined.

(** ** More on the sampler weights *)

Section sampler_outcomes.
Implicit Types labels studies : list string.

Lemma comprehension_length {A B} (f : A → result B) (l : list A) bs :
  comprehension f l = Ok bs → length bs = length l.
Proof.
  revert bs. induction l as [|a l IH]; intros bs Hbs; simpl in Hbs.
  - by simplify_eq.
  - destruct (f a) as [b|]; [|done]. simpl in Hbs.
    destruct (comprehension f l) as [bs'|]; [|done]. simpl in Hbs.
    simplify_eq. simpl. f_equal. by apply IH.
Qed.

(** A comprehension raises the exception of the first item that raises. *)
Lemma comprehension_raise {A B} (f : A → result B) (l1 l2 : list A) a e :
  (∀ x, x ∈ l1 → ∃ y, f x = Ok y) →
  f a = Raise e →
  comprehension f (l1 ++ a :: l2) = Raise e.
Proof.
  intros Hok Ha. induction l1 as [|x l1 IH]; simpl.
  - by rewrite Ha.
  - destruct (Hok x) as [y ->]; [apply list_elem_of_here|]. simpl.
    rewrite IH; [done|]. intros z Hz. apply Hok. by apply list_elem_of_further.
Qed.

Lemma WeightedRandomSampler_init_Ok ws n s :
  WeightedRandomSampler_init ws n = Ok s →
  0 < n ∧ weights s = ws ∧ num_samples s = n ∧ replacement s = true.
Proof.
  unfold WeightedRandomSampler_init. destruct (Z.leb_spec n 0); [done|].
  intros; simplify_eq. done.
Qed.

Lemma weights_of_label_fmap (g : string → npfloat) t labels :
  weights_of_label t labels (g <$> labels) = replicate (frequency t labels) (g t).
Proof.
  unfold weights_of_label, frequency. induction labels as [|a labels IH]; [done|].
  rewrite fmap_cons. cbn [zip_with]. rewrite !filter_cons. cbn [fst].
  destruct (decide (a = t)) as [->|].
  - rewrite fmap_cons. cbn [replicate length snd]. by rewrite IH.
  - by rewrite IH.
Qed.

Lemma sum_weights_replicate (k : nat) (x : R) :
  sum_weights (replicate k (Fin x)) = Some (INR k * x)%R.
Proof.
  induction k as [|k IH]; [simpl; f_equal; lra|].
  cbn [replicate sum_weights]. rewrite IH, S_INR. cbn [fmap option_fmap option_map].
  f_equal. lra.
Qed.
End sampler_outcomes.

(** X9: whenever [get_sampler_weights] returns a sampler, with or without
    studies, the sampler holds one weight per label, draws as many samples
    as there are labels, with replacement, and the labels are not empty: on
    an empty list of labels the construction of the sampler raises. *)
Theorem get_sampler_weights_shape
    (labels : list string) (studies : option (list string)) (s : WeightedRandomSampler) :
  get_sampler_weights labels studies = Ok s →
  length (weights s) = length labels
  ∧ num_samples s = Z.of_nat (length labels)
  ∧ replacement s = true
  ∧ labels ≠ [].
Proof.
  unfold get_sampler_weights. intros Hs.
  assert (∀ ws, length ws = length labels →
            WeightedRandomSampler_init ws (Z.of_nat (length ws)) = Ok s →
            length (weights s) = length labels
            ∧ num_samples s = Z.of_nat (length labels)
            ∧ replacement s = true ∧ labels ≠ []) as Hinit.
  { intros ws Hlen Hws.
    apply WeightedRandomSampler_init_Ok in Hws as (Hpos & -> & -> & ->).
    rewrite Hlen in *. repeat (split; [done|]). intros ->. simpl in Hpos. lia. }
  destruct studies as [studies|].
  - destruct (comprehension _ _) as [ws|] eqn:Hws; [|done].
    unfold mbind, result_bind in Hs. cbv beta iota zeta in Hs.
    apply comprehension_length in Hws.
    rewrite range_items_seq, length_fmap, length_seq in Hws.
    apply (Hinit (torch_Tensor_1d ws)); [|done].
    unfold torch_Tensor_1d. by rewrite length_fmap.
  - destruct (comprehension _ _) as [ws|] eqn:Hws; [|done].
    unfold mbind, result_bind in Hs. cbv beta iota zeta in Hs.
    apply comprehension_length in Hws.
    apply (Hinit (torch_Tensor_1d ws)); [|done].
    unfold torch_Tensor_1d. by rewrite length_fmap.
Qed.

Lemma get_sampler_weights_shape_witness :
  ∃ s, get_sampler_weights ["a"; "a"; "b"] None = Ok s
    ∧ length (weights s) = 3%nat
    ∧ num_samples s = 3.
Proof.
  eexists. split; [by rewrite get_sampler_weights_labels|].
  destruct (get_sampler_weights_shape ["a"; "a"; "b"] None
              {| weights := (λ t, Fin (1 / INR (frequency t ["a"; "a"; "b"])))
                            <$> ["a"; "a"; "b"];
                 num_samples := 3; replacement := true |}
              (get_sampler_weights_labels ["a"; "a"; "b"] ltac:(done)))
    as (Hlen & Hnum & _).
  split; [exact Hlen | exact Hnum].
Defined.

(** X10: with a list of studies shorter than the list of labels,
    [get_sampler_weights] raises [IndexError] at the first row without a
    study, and returns no sampler. *)
Theorem get_sampler_weights_short_studies (labels studies : list string) :
  (length studies < length labels)%nat →
  get_sampler_weights labels (Some studies)
  = Raise (IndexError "list index out of range").
Proof.
  intros Hshort. unfold get_sampler_weights. rewrite range_items_seq.
  replace (length labels) with (length studies + S (length labels - length studies - 1))%nat
    by lia.
  rewrite seq_app, fmap_app. simpl.
  rewrite (comprehension_raise _ _ _ _ (IndexError "list index out of range")); [done|..].
  - intros i (k & -> & [_ Hk]%elem_of_seq)%list_elem_of_fmap. simpl in Hk.
    destruct (lookup_lt_is_Some_2 labels k ltac:(lia)) as [label Hl].
    destruct (lookup_lt_is_Some_2 studies k Hk) as [study Hs].
    rewrite (py_index_lookup _ _ _ Hl), (py_index_lookup _ _ _ Hs). simpl.
    rewrite !Counter_get_frequency.
    rewrite float_truediv_pos by (apply frequency_pos, list_elem_of_lookup; eauto).
    simpl. eauto.
  - destruct (lookup_lt_is_Some_2 labels (length studies) Hshort) as [label Hl].
    rewrite (py_index_lookup _ _ _ Hl). simpl.
    rewrite !Counter_get_frequency.
    rewrite float_truediv_pos by (apply frequency_pos, list_elem_of_lookup; eauto).
    simpl. rewrite py_index_out_of_range by lia. done.
Qed.

Lemma get_sampler_weights_short_studies_witness :
  (length ["s1"] < length ["a"; "b"])%nat
  ∧ get_sampler_weights ["a"; "b"] (Some ["s1"])
    = Raise (IndexError "list index out of range").
Proof.
  split; [simpl; lia|].
  apply (get_sampler_weights_short_studies ["a"; "b"] ["s1"]). simpl. lia.
Defined.

(** X11: without studies the weights balance the classes: the weights of
    the rows of any one label that occurs sum to 1, however many rows carry
    the label. *)
Theorem get_sampler_weights_class_total
    (labels : list string) (s : WeightedRandomSampler) (t : string) :
  get_sampler_weights labels None = Ok s →
  t ∈ labels →
  sum_weights (weights_of_label t labels (weights s)) = Some 1%R.
Proof.
  intros Hs Ht.
  rewrite get_sampler_weights_labels in Hs by (intros ->; by apply not_elem_of_nil in Ht).
  simplify_eq/=. rewrite weights_of_label_fmap, sum_weights_replicate. f_equal.
  pose proof (INR_frequency_pos t labels Ht). field. lra.
Qed.

Lemma get_sampler_weights_class_total_witness :
  ∃ s, get_sampler_weights ["a"; "a"; "b"] None = Ok s
    ∧ "a" ∈ ["a"; "a"; "b"]
    ∧ sum_weights (weights_of_label "a" ["a"; "a"; "b"] (weights s)) = Some 1%R.
Proof.
  eexists. split; [by rewrite get_sampler_weights_labels|].
  split; [apply list_elem_of_here|].
  apply (get_sampler_weights_class_total ["a"; "a"; "b"]);
    [by rewrite get_sampler_weights_labels | apply list_elem_of_here].
Defined.

(** ** More on the two-way weights *)

Section two_way_rows.
Implicit Types vec : list string.

Lemma cooccurrences_row vec1 vec2 (k : nat) c1 c2 :
  vec1 !! k = Some c1 → vec2 !! k = Some c2 →
  (0 < cooccurrences vec1 vec2 c1 c2)%nat.
Proof.
  intros H1 H2. unfold cooccurrences.
  assert ((c1, c2) ∈ filter (λ p, p = (c1, c2)) (zip vec1 vec2)) as Hin.
  { apply list_elem_of_filter. split; [done|].
    apply list_elem_of_lookup. exists k.
    by rewrite lookup_zip_with, H1, H2. }
  destruct (filter _ _); [by apply not_elem_of_nil in Hin | simpl; lia].
Qed.

End two_way_rows.

(** X12: for two sequences of equal length the mapping has an entry
    exactly at the keys made of a value of the second sequence and a value
    of the first; and for every row, the entry of the row's own pair is the
    inverse of the number of rows with that pair, a finite weight above 0
    and at most 1. *)
Theorem two_way_weighting_rows (vec1 vec2 : list string) :
  length vec1 = length vec2 →
  ∃ m, two_way_weighting vec1 vec2 = Ok m
    ∧ (∀ c1 c2, is_Some (m !! (c2, c1)) ↔ c1 ∈ vec1 ∧ c2 ∈ vec2)
    ∧ (∀ (k : nat) c1 c2, vec1 !! k = Some c1 → vec2 !! k = Some c2 →
         m !! (c2, c1) = Some (Fin (1 / INR (cooccurrences vec1 vec2 c1 c2)))
         ∧ (0 < 1 / INR (cooccurrences vec1 vec2 c1 c2) <= 1)%R).
Proof.
  intros Hlen.
  destruct (two_way_weighting_lookup vec1 vec2 Hlen) as (m & Hm & Hin & Hout).
  exists m. split; [done|]. split.
  - intros c1 c2. split.
    + intros Hsome. destruct (decide (c1 ∈ vec1 ∧ c2 ∈ vec2)) as [|Hnot]; [done|].
      rewrite (Hout c1 c2 Hnot) in Hsome. by destruct Hsome.
    + intros [H1 H2]. rewrite (Hin c1 c2 H1 H2). eauto.
  - intros k c1 c2 H1 H2.
    pose proof (cooccurrences_row vec1 vec2 k c1 c2 H1 H2) as Hpos.
    rewrite (Hin c1 c2) by (apply list_elem_of_lookup; eauto).
    destruct (decide (cooccurrences vec1 vec2 c1 c2 = 0%nat)) as [?|_]; [lia|].
    split; [done|].
    assert (1 <= INR (cooccurrences vec1 vec2 c1 c2))%R as Hge
      by (apply (le_INR 1); lia).
    split.
    + apply Rdiv_lt_0_compat; lra.
    + apply (Rmult_le_reg_r (INR (cooccurrences vec1 vec2 c1 c2))); [lra|].
      replace (1 / INR (cooccurrences vec1 vec2 c1 c2)
               * INR (cooccurrences vec1 vec2 c1 c2))%R with 1%R by (field; lra).
      lra.
Qed.

Lemma two_way_weighting_rows_witness :
  length ["a"; "a"; "b"] = length ["x"; "y"; "x"]
  ∧ ∃ m, two_way_weighting ["a"; "a"; "b"] ["x"; "y"; "x"] = Ok m
      ∧ is_Some (m !! ("y", "b"))
      ∧ m !! ("x", "b")
        = Some (Fin (1 / INR (cooccurrences ["a"; "a"; "b"] ["x"; "y"; "x"] "b" "x"))).
Proof.
  split; [reflexivity|].
  destruct (two_way_weighting_rows ["a"; "a"; "b"] ["x"; "y"; "x"] eq_refl)
    as (m & Hm & Hdom & Hrows).
  exists m. split; [exact Hm|]. split.
  - apply Hdom. split; elem_of_list.
  - exact (proj1 (Hrows 2%nat "b" "x" eq_refl eq_refl)).
Defined.

(** ** Python dicts and the label maps *)

Section dicts.
Context {K V : Type} `{EqDecision K} `{EqDecision V}.
Implicit Types d : list (K * V).

Lemma dict_get_Some_elem_of d k v : dict_get d k = Some v → (k, v) ∈ d.
Proof.
  induction d as [|[k' v'] d IH]; [done|]. simpl.
  destruct (decide (k' = k)) as [->|].
  - intros; simplify_eq. apply list_elem_of_here.
  - intros Hget. apply list_elem_of_further. by apply IH.
Qed.

Lemma dict_get_None d k : k ∉ d.*1 → dict_get d k = None.
Proof.
  induction d as [|[k' v'] d IH]; [done|]. simpl.
  intros Hnot. apply not_elem_of_cons in Hnot as [Hne Hnot].
  destruct (decide (k' = k)); [done|]. by apply IH.
Qed.

(** In a dict, where each key occurs once, the lookup finds exactly the
    items. *)
Lemma dict_get_Some d k v : NoDup (d.*1) → dict_get d k = Some v ↔ (k, v) ∈ d.
Proof.
  intros Hnodup. split; [apply dict_get_Some_elem_of|].
  induction d as [|[k' v'] d IH]; [by intros ?%not_elem_of_nil|].
  simpl in *. apply NoDup_cons in Hnodup as [Hk' Hnodup].
  intros [?|Hin]%elem_of_cons.
  - simplify_eq. by rewrite decide_True.
  - destruct (decide (k' = k)) as [->|]; [|by apply IH].
    destruct Hk'. apply list_elem_of_fmap. by exists (k, v).
Qed.

Lemma dict_set_fresh d k v : k ∉ d.*1 → dict_set d k v = d ++ [(k, v)].
Proof.
  induction d as [|[k' v'] d IH]; [done|]. simpl.
  intros Hnot. apply not_elem_of_cons in Hnot as [Hne Hnot].
  destruct (decide (k' = k)); [done|]. by rewrite IH.
Qed.

Lemma dict_get_set d k v k' :
  dict_get (dict_set d k v) k' = if decide (k = k') then Some v else dict_get d k'.
Proof.
  induction d as [|[k0 v0] d IH]; simpl.
  - destruct (decide (k = k')); done.
  - destruct (decide (k0 = k)) as [->|Hne]; simpl.
    + destruct (decide (k = k')); done.
    + rewrite IH. destruct (decide (k0 = k')) as [->|]; [|done].
      by rewrite decide_False.
Qed.

End dicts.

Section dict_inversion.
Context {K V : Type} `{EqDecision K} `{EqDecision V}.

(** The inversion of pairs with distinct values, started from a dict that
    holds none of them, appends the swapped pairs in order. *)
Lemma invert_fold_NoDup (acc : list (V * K)) (pairs : list (K * V)) :
  NoDup (pairs.*2) →
  (∀ v, v ∈ pairs.*2 → v ∉ acc.*1) →
  foldl (λ inv kv, dict_set inv kv.2 kv.1) acc pairs = acc ++ (prod_swap <$> pairs).
Proof.
  revert acc. induction pairs as [|[k v] pairs IH]; intros acc Hnodup Hfresh.
  - by rewrite app_nil_r.
  - simpl in *. apply NoDup_cons in Hnodup as [Hv Hnodup].
    rewrite dict_set_fresh by (apply Hfresh, list_elem_of_here).
    rewrite IH; [by rewrite <-app_assoc|done|].
    intros v' Hv'. rewrite fmap_app. simpl. rewrite elem_of_app, list_elem_of_singleton.
    intros [Hacc| ->]; [|done].
    by apply (Hfresh v'); [apply list_elem_of_further|].
Qed.

Lemma invert_dict_NoDup (pairs : list (K * V)) :
  NoDup (pairs.*2) → invert_dict pairs = prod_swap <$> pairs.
Proof.
  intros Hnodup. unfold invert_dict. rewrite invert_fold_NoDup; [done|done|].
  intros v _. apply not_elem_of_nil.
Qed.

(** An entry of an inverted dict comes from a pair. *)
Lemma invert_fold_get (acc : list (V * K)) (pairs : list (K * V)) v k :
  dict_get (foldl (λ inv kv, dict_set inv kv.2 kv.1) acc pairs) v = Some k →
  (k, v) ∈ pairs ∨ dict_get acc v = Some k.
Proof.
  revert acc. induction pairs as [|[k0 v0] pairs IH]; intros acc; simpl; [by right|].
  intros [Hin|Hacc]%IH; [left; by apply list_elem_of_further|].
  rewrite dict_get_set in Hacc. destruct (decide (v0 = v)) as [->|]; [|by right].
  simplify_eq. left. apply list_elem_of_here.
Qed.

(** Every value of the pairs is a key of the inverted dict. *)
Lemma invert_fold_is_Some (acc : list (V * K)) (pairs : list (K * V)) v :
  v ∈ pairs.*2 ∨ is_Some (dict_get acc v) →
  is_Some (dict_get (foldl (λ inv kv, dict_set inv kv.2 kv.1) acc pairs) v).
Proof.
  revert acc. induction pairs as [|[k0 v0] pairs IH]; intros acc; simpl.
  - intros [?%not_elem_of_nil|?]; done.
  - intros Hv. apply IH. rewrite dict_get_set.
    destruct (decide (v0 = v)) as [->|Hne]; [right; eauto|].
    destruct Hv as [[?|?]%elem_of_cons|?]; [done|by left|by right].
Qed.

Lemma fst_prod_swap (pairs : list (K * V)) : (prod_swap <$> pairs).*1 = pairs.*2.
Proof. induction pairs as [|[k v] pairs IH]; [done|]. rewrite !fmap_cons. by f_equal. Qed.

Lemma snd_prod_swap (pairs : list (K * V)) : (prod_swap <$> pairs).*2 = pairs.*1.
Proof. induction pairs as [|[k v] pairs IH]; [done|]. rewrite !fmap_cons. by f_equal. Qed.
End dict_inversion.

(** X13: [self.label2int] of [CellEmbedding] is read back by
    [self.int2label]: a label mapped to an id is the label of that id; the
    labels with an id are exactly the labels of [int2label]; and when no two
    ids share a label the two maps are inverse of each other. *)
Theorem CellEmbedding_label2int_inverse (int2label : list (Z * string)) :
  NoDup (int2label.*1) →
  (∀ label i, dict_get (CellEmbedding_label2int int2label) label = Some i →
              dict_get int2label i = Some label)
  ∧ (∀ label, is_Some (dict_get (CellEmbedding_label2int int2label) label)
              ↔ label ∈ int2label.*2)
  ∧ (NoDup (int2label.*2) →
     ∀ label i, dict_get int2label i = Some label →
                dict_get (CellEmbedding_label2int int2label) label = Some i).
Proof.
  intros Hkeys. unfold CellEmbedding_label2int, invert_dict. split; [|split].
  - intros label i [Hin|?]%invert_fold_get; [|done].
    by apply dict_get_Some.
  - intros label. split.
    + intros [i [Hin|?]%invert_fold_get]; [|done].
      apply list_elem_of_fmap. by exists (i, label).
    + intros Hin. apply invert_fold_is_Some. by left.
  - intros Hvalues label i Hget%dict_get_Some; [|done].
    fold (invert_dict int2label). rewrite invert_dict_NoDup by done.
    apply dict_get_Some.
    + by rewrite fst_prod_swap.
    + apply list_elem_of_fmap. by exists (i, label).
Qed.

Lemma CellEmbedding_label2int_inverse_witness :
  NoDup ([(0, "B cell"); (1, "T cell"); (2, "B cell")].*1)
  ∧ dict_get (CellEmbedding_label2int [(0, "B cell"); (1, "T cell"); (2, "B cell")])
      "B cell" = Some 2
  ∧ dict_get [(0, "B cell"); (1, "T cell"); (2, "B cell")] 2 = Some "B cell".
Proof.
  assert (NoDup ([(0, "B cell"); (1, "T cell"); (2, "B cell")].*1)) as Hkeys
    by (apply (bool_decide_unpack _); exact I).
  split; [exact Hkeys|]. split; [reflexivity|].
  apply (proj1 (CellEmbedding_label2int_inverse
                  [(0, "B cell"); (1, "T cell"); (2, "B cell")] Hkeys) "B cell" 2).
  reflexivity.
Defined.

(** ** The constructor of the data module *)

Section enumerate_facts.
Context {A : Type}.
Implicit Types l : list A.

Lemma fst_enumerate l : (enumerate l).*1 = seq 0 (length l).
Proof. unfold enumerate. apply fst_zip. by rewrite length_seq. Qed.

Lemma snd_enumerate l : (enumerate l).*2 = l.
Proof. unfold enumerate. apply snd_zip. by rewrite length_seq. Qed.

Lemma elem_of_enumerate l (i : nat) x : (i, x) ∈ enumerate l ↔ l !! i = Some x.
Proof.
  unfold enumerate. rewrite list_elem_of_lookup. split.
  - intros (j & Hj). rewrite lookup_zip_with in Hj.
    destruct (seq 0 (length l) !! j) as [i'|] eqn:Hseq; [|done]. simpl in Hj.
    destruct (l !! j) as [x'|] eqn:Hl; [|done]. simpl in Hj. simplify_eq.
    apply lookup_seq in Hseq as [-> _]. done.
  - intros Hl. exists i. rewrite lookup_zip_with, Hl.
    rewrite lookup_seq_lt by (by eapply lookup_lt_Some). done.
Qed.
End enumerate_facts.

Section data_module.
Context {D : Type} `{Store D} `{DataFiles D}.

(** The loop over the files appends the opened stores and, store by store,
    their label column and their study column. *)
Lemma load_files_appends path obs_field files (data_list : list D) Y study
    data_list' Y' study' :
  load_files path obs_field files data_list Y study = Return (data_list', Y', study') →
  ∃ opened : list D,
    data_list' = data_list ++ opened
    ∧ Y' = Y ++ concat ((λ z, get_obs z obs_field) <$> opened)
    ∧ study' = study ++ concat ((λ z, get_obs z "study") <$> opened).
Proof.
  revert data_list Y study.
  induction files as [|filename files IH]; intros data_list Y study; simpl.
  - intros; simplify_eq. exists []. by rewrite !app_nil_r.
  - destruct (isdir (path_join path filename)); [|apply IH].
    destruct (ZarrDataset (path_join path filename)) as [z|]; [|done]. simpl.
    intros (opened & -> & -> & ->)%IH. exists (z :: opened). simpl.
    by rewrite <-!app_assoc.
Qed.

(** What a loaded split holds, in terms of the stores it opened. *)
Lemma load_split_Return path obs_field (sp : split D) :
  load_split path obs_field = Return sp →
  ∃ stores : list D,
    dataset sp = scDatasetFromList_init stores "celltype_name" "study"
    ∧ split_Y sp = concat ((λ z, get_obs z obs_field) <$> stores)
    ∧ split_study sp = concat ((λ z, get_obs z "study") <$> stores).
Proof.
  unfold load_split. destruct (listdir path) as [entries|]; [|done]. simpl.
  destruct (load_files _ _ _ _ _ _) as [[[stores Y] study]|] eqn:Hfiles; [|done].
  simpl. intros; simplify_eq.
  apply load_files_appends in Hfiles as (opened & -> & -> & ->).
  by exists opened.
Qed.

(** What the constructor returns, field by field. *)
Lemma MetricLearningZarrDataModule_init_Return
    tp go vp tep obs_field bs nw (dm : MetricLearningZarrDataModule D) :
  MetricLearningZarrDataModule_init tp go vp tep obs_field bs nw = Return dm →
  load_split tp obs_field = Return (train dm)
  ∧ load_optional_split vp obs_field = Return (val dm)
  ∧ load_optional_split tep obs_field = Return (test dm)
  ∧ read_gene_order go = Return (dm_gene_order dm)
  ∧ n_genes dm = length (dm_gene_order dm)
  ∧ class_names dm = set_iter (split_Y (train dm))
  ∧ label2int dm = invert_dict (enumerate (class_names dm))
  ∧ int2label dm = invert_dict (label2int dm).
Proof.
  unfold MetricLearningZarrDataModule_init.
  destruct (read_gene_order go) as [genes|]; [|done]. simpl.
  destruct (load_split tp obs_field) as [tr|]; [|done]. simpl.
  destruct (load_optional_split vp obs_field) as [v|]; [|done]. simpl.
  destruct (load_optional_split tep obs_field) as [te|]; [|done]. simpl.
  intros; simplify_eq. done.
Qed.

(** The label maps over an iteration order without repetition. *)
Lemma label2int_enumerate (names : list string) :
  NoDup names → invert_dict (enumerate names) = prod_swap <$> enumerate names.
Proof. intros Hnames. apply invert_dict_NoDup. by rewrite snd_enumerate. Qed.

Lemma int2label_enumerate (names : list string) :
  NoDup names → invert_dict (invert_dict (enumerate names)) = enumerate names.
Proof.
  intros Hnames. rewrite label2int_enumerate by done.
  rewrite invert_dict_NoDup.
  - rewrite <-list_fmap_compose. clear. induction (enumerate names) as [|[] ? IH]; [done|].
    rewrite fmap_cons. by f_equal.
  - rewrite snd_prod_swap, fst_enumerate. apply NoDup_seq.
Qed.

Lemma label2int_get (names : list string) label (i : nat) :
  NoDup names →
  dict_get (invert_dict (enumerate names)) label = Some i ↔ names !! i = Some label.
Proof.
  intros Hnames. rewrite label2int_enumerate by done.
  rewrite dict_get_Some by (by rewrite fst_prod_swap, snd_enumerate).
  rewrite <-elem_of_enumerate, list_elem_of_fmap. split.
  - by intros ([i' l'] & ? & ?); simplify_eq/=.
  - intros Hin. by exists (i, label).
Qed.

Lemma int2label_get (names : list string) label (i : nat) :
  NoDup names →
  dict_get (invert_dict (invert_dict (enumerate names))) i = Some label
  ↔ names !! i = Some label.
Proof.
  intros Hnames. rewrite int2label_enumerate by done.
  rewrite dict_get_Some by (rewrite fst_enumerate; apply NoDup_seq).
  apply elem_of_enumerate.
Qed.
End data_module.

(** X14: in a constructed data module the labels with an integer are
    exactly the labels of the training split; the integers are the positions
    [0 .. n-1] of the labels in the iteration order of the set of labels,
    whatever that order is; and [int2label] reads [label2int] back: a label
    has the integer [i] exactly when [i] has that label. *)
Theorem data_module_label_maps {D : Type} `{Store D} `{DataFiles D}
    (train_path gene_order : string) (val_path test_path : option string)
    (obs_field : string) (batch_size num_workers : Z)
    (dm : MetricLearningZarrDataModule D) :
  MetricLearningZarrDataModule_init train_path gene_order val_path test_path
    obs_field batch_size num_workers = Return dm →
  (∀ label, is_Some (dict_get (label2int dm) label) ↔ label ∈ split_Y (train dm))
  ∧ (∀ label (i : nat),
       dict_get (label2int dm) label = Some i ↔ class_names dm !! i = Some label)
  ∧ (∀ label (i : nat),
       dict_get (label2int dm) label = Some i ↔ dict_get (int2label dm) i = Some label)
  ∧ (∀ label (i : nat),
       dict_get (label2int dm) label = Some i → (i < length (class_names dm))%nat).
Proof.
  intros (_ & _ & _ & _ & _ & Hnames & Hl2i & Hi2l)%MetricLearningZarrDataModule_init_Return.
  assert (NoDup (class_names dm)) as Hnodup by (rewrite Hnames; apply set_iter_NoDup).
  rewrite Hi2l, Hl2i.
  split; [|split; [|split]].
  - intros label. rewrite <-set_iter_elem_of, <-Hnames, list_elem_of_lookup.
    split; intros [i Hi]; exists i; by apply label2int_get.
  - intros label i. by apply label2int_get.
  - intros label i. by rewrite label2int_get, int2label_get.
  - intros label i Hi%label2int_get; [|done]. by eapply lookup_lt_Some.
Qed.

Example toy_data_module_fields :
  ∃ dm, toy_data_module = Return dm
    ∧ file_list (train dm) = ["a.aligned.zarr"; "b.aligned.zarr"; "c.aligned.zarr"]
    ∧ data_list (dataset (train dm)) = [toy_store_a; toy_store_b]
    ∧ split_Y (train dm) = ["T cell"; "B cell"; "T cell"]
    ∧ split_study (train dm) = ["s1"; "s1"; "s2"]
    ∧ label2int dm = [("B cell", 0%nat); ("T cell", 1%nat)]
    ∧ int2label dm = [(0%nat, "B cell"); (1%nat, "T cell")].
Proof. eexists. split; [reflexivity|]. repeat split; reflexivity. Qed.

Lemma data_module_label_maps_witness :
  ∃ dm, toy_data_module = Return dm
    ∧ (is_Some (dict_get (label2int dm) "B cell") ↔ "B cell" ∈ split_Y (train dm))
    ∧ (dict_get (label2int dm) "T cell" = Some 1%nat
       ↔ dict_get (int2label dm) 1%nat = Some "T cell").
Proof.
  eexists. split; [reflexivity|].
  destruct (@data_module_label_maps toy_store toy_store_Store toy_files
              "train" "gene_order.tsv" None None "celltype_name" 1000 1 _ eq_refl)
    as (Hdom & _ & Hback & _).
  split; [exact (Hdom "B cell") | exact (Hback "T cell" 1%nat)].
Defined.

(** ** The label and study lists against the multi-store view *)

Section columns.
Local Open Scope nat_scope.
Context {D : Type} `{Store D}.
Implicit Types stores : list D.

(** A column with one entry per row, store by store. *)
Lemma columns_length (col : D → list string) stores :
  (∀ z, z ∈ stores → length (col z) = shape0 z) →
  length (concat (col <$> stores)) = sum_list (shape0 <$> stores).
Proof.
  induction stores as [|z stores IH]; intros Hcol; [done|].
  rewrite !fmap_cons. cbn [concat sum_list_with]. rewrite length_app.
  rewrite Hcol by apply list_elem_of_here.
  rewrite IH; [done|]. intros z' Hz'. apply Hcol. by apply list_elem_of_further.
Qed.

Lemma columns_lookup (col : D → list string) stores n i store :
  (∀ z, z ∈ stores → length (col z) = shape0 z) →
  stores !! n = Some store →
  concat (col <$> stores) !! (sum_list (shape0 <$> take n stores) + i)
  = if decide (i < shape0 store) then col store !! i
    else concat (col <$> drop (S n) stores) !! (i - shape0 store).
Proof.
  intros Hcol Hn.
  assert (concat (col <$> stores)
          = concat (col <$> take n stores)
            ++ col store ++ concat (col <$> drop (S n) stores)) as ->.
  { rewrite <-(take_drop_middle stores n store Hn) at 1.
    by rewrite fmap_app, fmap_cons, concat_app. }
  assert (length (concat (col <$> take n stores))
          = sum_list (shape0 <$> take n stores)) as Hpre.
  { apply columns_length. intros z Hz. by apply Hcol, (subseteq_take n). }
  rewrite lookup_app_r by lia. rewrite Hpre.
  replace (sum_list (shape0 <$> take n stores) + i - sum_list (shape0 <$> take n stores))
    with i by lia.
  assert (length (col store) = shape0 store) as Hlen
    by (apply Hcol, list_elem_of_lookup; eauto).
  destruct (decide (i < shape0 store)).
  - by rewrite lookup_app_l by lia.
  - rewrite lookup_app_r by lia. by rewrite Hlen.
Qed.

Lemma py_index_Ok_lookup {A} (l : list A) (i : nat) x :
  py_index l (Z.of_nat i) = Ok x → l !! i = Some x.
Proof.
  unfold py_index. destruct (Z.ltb_spec (Z.of_nat i) 0); [lia|].
  destruct (_ && _); [|done]. rewrite Nat2Z.id.
  destruct (l !! i); [|done]. by intros; simplify_eq.
Qed.

(** A successful [__getitem__] at a global index, read against the columns
    of all stores. *)
Lemma getitem_columns stores c s (idx : nat) cell label study :
  (∀ z, z ∈ stores → length (get_obs z c) = shape0 z) →
  (∀ z, z ∈ stores → length (get_obs z s) = shape0 z) →
  scDatasetFromList_getitem (scDatasetFromList_init stores c s) (Z.of_nat idx)
  = Ok (cell, label, study) →
  concat ((λ z, get_obs z c) <$> stores) !! idx = Some label
  ∧ concat ((λ z, get_obs z s) <$> stores) !! idx = Some study.
Proof.
  intros Hc Hs Hget.
  destruct (decide (idx < sum_list (shape0 <$> stores))) as [Hidx|Hidx].
  - destruct (scDatasetFromList_resolve stores c s idx Hidx)
      as (n & i & store & Hd & Hcell & Hstore & Hi & Hsum).
    unfold scDatasetFromList_getitem in Hget.
    rewrite (py_index_lookup _ _ _ Hd), (py_index_lookup _ _ _ Hcell) in Hget.
    simpl in Hget. rewrite (py_index_lookup _ _ _ Hstore) in Hget. simpl in Hget.
    destruct (get_cell store i) as [cell'|]; [|done]. simpl in Hget.
    destruct (py_index (get_obs store c) (Z.of_nat i)) as [label'|] eqn:Hlabel; [|done].
    simpl in Hget.
    destruct (py_index (get_obs store s) (Z.of_nat i)) as [study'|] eqn:Hstudy; [|done].
    simpl in Hget. simplify_eq.
    apply py_index_Ok_lookup in Hlabel, Hstudy.
    rewrite !(columns_lookup _ stores n i store) by done.
    by rewrite !decide_True by done.
  - unfold scDatasetFromList_getitem in Hget.
    rewrite (py_index_out_of_range (data_idx _)) in Hget; [done|].
    rewrite length_data_idx. lia.
Qed.
End columns.

(** X15: in a constructed data module whose training stores have one label
    and one study per row, the lists of labels and of studies from which the
    sampler weights are computed have one entry per item of the training
    view; the study that [__getitem__] returns at a global index is the
    entry of the study list at that index; and so is the label, when the
    label column asked of the constructor is "celltype_name", the column
    that the view reads. *)
Theorem data_module_train_aligned {D : Type} `{Store D} `{DataFiles D}
    (train_path gene_order : string) (val_path test_path : option string)
    (obs_field : string) (batch_size num_workers : Z)
    (dm : MetricLearningZarrDataModule D) :
  MetricLearningZarrDataModule_init train_path gene_order val_path test_path
    obs_field batch_size num_workers = Return dm →
  (∀ z, z ∈ data_list (dataset (train dm)) →
        length (get_obs z obs_field) = shape0 z
        ∧ length (get_obs z "study") = shape0 z) →
  length (split_Y (train dm)) = scDatasetFromList_len (dataset (train dm))
  ∧ length (split_study (train dm)) = scDatasetFromList_len (dataset (train dm))
  ∧ ∀ (idx : nat) cell label study,
      scDatasetFromList_getitem (dataset (train dm)) (Z.of_nat idx)
      = Ok (cell, label, study) →
      split_study (train dm) !! idx = Some study
      ∧ (obs_field = "celltype_name" → split_Y (train dm) !! idx = Some label).
Proof.
  intros (Htrain & _)%MetricLearningZarrDataModule_init_Return Hcols.
  apply load_split_Return in Htrain as (stores & Hds & HY & Hstudy).
  rewrite Hds in *. rewrite HY, Hstudy. unfold scDatasetFromList_len.
  change (ncells (scDatasetFromList_init stores "celltype_name" "study"))
    with (sum_list (shape0 <$> stores)).
  change (data_list (scDatasetFromList_init stores "celltype_name" "study"))
    with stores in Hcols.
  split; [apply columns_length; intros z Hz; by apply Hcols|].
  split; [apply columns_length; intros z Hz; by apply Hcols|].
  intros idx cell label study Hget. split.
  - destruct (decide (obs_field = "celltype_name")) as [->|].
    + by destruct (getitem_columns stores "celltype_name" "study" idx cell label study)
        as [_ ?]; [intros z Hz; by apply Hcols..|done|].
    + (* the study column alone is needed *)
      destruct (decide (idx < sum_list (shape0 <$> stores))%nat) as [Hidx|Hidx].
      * destruct (scDatasetFromList_resolve stores "celltype_name" "study" idx Hidx)
          as (k & i & store & Hd & Hcell & Hstore & Hi & Hsum).
        unfold scDatasetFromList_getitem in Hget.
        rewrite (py_index_lookup _ _ _ Hd), (py_index_lookup _ _ _ Hcell) in Hget.
        simpl in Hget. rewrite (py_index_lookup _ _ _ Hstore) in Hget. simpl in Hget.
        destruct (get_cell store i) as [cell'|]; [|done]. simpl in Hget.
        destruct (py_index (get_obs store "celltype_name") (Z.of_nat i)); [|done].
        simpl in Hget.
        destruct (py_index (get_obs store "study") (Z.of_nat i)) as [study'|] eqn:Hst;
          [|done].
        simpl in Hget. simplify_eq. apply py_index_Ok_lookup in Hst.
        rewrite (columns_lookup _ stores k i store) by (done || intros z Hz; by apply Hcols).
        by rewrite decide_True by done.
      * unfold scDatasetFromList_getitem in Hget.
        rewrite (py_index_out_of_range (data_idx _)) in Hget; [done|].
        rewrite length_data_idx. lia.
  - intros ->.
    by destruct (getitem_columns stores "celltype_name" "study" idx cell label study)
      as [? _]; [intros z Hz; by apply Hcols..|done|].
Qed.

Lemma data_module_train_aligned_witness :
  ∃ dm, toy_data_module = Return dm
    ∧ length (split_Y (train dm)) = scDatasetFromList_len (dataset (train dm))
    ∧ length (split_study (train dm)) = scDatasetFromList_len (dataset (train dm)).
Proof.
  eexists. split; [reflexivity|].
  destruct (@data_module_train_aligned toy_store toy_store_Store toy_files
              "train" "gene_order.tsv" None None "celltype_name" 1000 1 _ eq_refl)
    as (HY & Hstudy & _).
  - intros z Hz. simpl in Hz.
    apply elem_of_cons in Hz as [->|Hz]; [split; reflexivity|].
    apply elem_of_cons in Hz as [->|Hz]; [split; reflexivity|].
    by apply elem_of_nil in Hz.
  - split; [exact HY | exact Hstudy].
Defined.

(** ** Collation of a batch *)

Section collate_facts.
Context {D : Type}.
Implicit Types batch : list (row * string * string).

Lemma comprehension_outcome_Return {A B} (f : A → outcome B) (g : A → B) (l : list A) :
  (∀ a, a ∈ l → f a = Return (g a)) → comprehension_outcome f l = Return (g <$> l).
Proof.
  induction l as [|a l IH]; intros Hf; [done|]. simpl.
  rewrite Hf by apply list_elem_of_here. simpl.
  rewrite IH; [done|]. intros b Hb. apply Hf. by apply list_elem_of_further.
Qed.

Lemma comprehension_outcome_Throw {A B} (f : A → outcome B) (l1 l2 : list A) a e :
  (∀ x, x ∈ l1 → ∃ y, f x = Return y) →
  f a = Throw e →
  comprehension_outcome f (l1 ++ a :: l2) = Throw e.
Proof.
  intros Hok Ha. induction l1 as [|x l1 IH]; simpl.
  - by rewrite Ha.
  - destruct (Hok x) as [y ->]; [apply list_elem_of_here|]. simpl.
    rewrite IH; [done|]. intros z Hz. apply Hok. by apply list_elem_of_further.
Qed.

(** Rows of one width stack into the matrix of those rows. *)
Lemma np_vstack_uniform (profiles : list row) (w : nat) :
  profiles ≠ [] →
  (∀ r, r ∈ profiles → length r = w) →
  np_vstack profiles = Ok profiles.
Proof.
  intros Hne Hw. unfold np_vstack. destruct profiles as [|p rest] eqn:Hp; [done|].
  rewrite <-Hp in *.
  assert (forallb (λ q, (length q =? length p)%nat) profiles = true) as ->; [|done].
  apply forallb_forall. intros q Hq%list_elem_of_In.
  apply Nat.eqb_eq. rewrite (Hw q Hq). symmetry. apply Hw.
  rewrite Hp. apply list_elem_of_here.
Qed.

Lemma dict_index_Some {V} (d : list (string * V)) key v :
  dict_get d key = Some v → dict_index d key = Return v.
Proof. intros Hget. unfold dict_index. by rewrite Hget. Qed.

(** The whole result of a collation whose labels all have an integer. *)
Lemma collate_Return (self : MetricLearningZarrDataModule D) batch (w : nat)
    (int_of : string → nat) :
  batch ≠ [] →
  (∀ b, b ∈ batch → length b.1.1 = w) →
  (∀ b, b ∈ batch → dict_get (label2int self) b.1.2 = Some (int_of b.1.2)) →
  collate self batch
  = Return (squeeze (torch_Tensor ((λ b, b.1.1) <$> batch)),
            (λ b, int_of b.1.2) <$> batch,
            (λ b, b.2) <$> batch).
Proof.
  intros Hne Hw Hlabels. unfold collate. destruct batch as [|b0 rest] eqn:Hb; [done|].
  rewrite <-Hb in *.
  rewrite (np_vstack_uniform _ w).
  - simpl.
    rewrite (comprehension_outcome_Return _ int_of).
    + simpl. by rewrite <-list_fmap_compose.
    + intros label (b & -> & Hin)%list_elem_of_fmap.
      by apply dict_index_Some, Hlabels.
  - rewrite Hb. done.
  - intros r (b & -> & Hin)%list_elem_of_fmap. by apply Hw.
Qed.
End collate_facts.

(** X16: on a batch that is not empty, with profiles of one width,
    [collate] returns the integers of the labels, in the order of the batch,
    and the studies as they are, when every label has an integer in
    [self.label2int]; when some label has none it raises [KeyError] for the
    first such label. *)
Theorem collate_labels {D : Type} (self : MetricLearningZarrDataModule D)
    (batch : list (row * string * string)) (w : nat) :
  batch ≠ [] →
  (∀ b, b ∈ batch → length b.1.1 = w) →
  ((∀ b, b ∈ batch → is_Some (dict_get (label2int self) b.1.2)) →
   ∃ profiles ints,
     collate self batch = Return (profiles, ints, (λ b, b.2) <$> batch)
     ∧ length ints = length batch
     ∧ ∀ (k : nat) b, batch !! k = Some b →
         ∃ i, ints !! k = Some i ∧ dict_get (label2int self) b.1.2 = Some i)
  ∧ (∀ seen b rest,
       batch = seen ++ b :: rest →
       (∀ x, x ∈ seen → is_Some (dict_get (label2int self) x.1.2)) →
       dict_get (label2int self) b.1.2 = None →
       collate self batch = Throw (KeyError b.1.2)).
Proof.
  intros Hne Hw. split.
  - intros Hlabels.
    set (int_of := λ label, default 0%nat (dict_get (label2int self) label)).
    exists (squeeze (torch_Tensor ((λ b, b.1.1) <$> batch))),
      ((λ b, int_of b.1.2) <$> batch).
    split; [|split].
    + apply (collate_Return self batch w int_of); [done|done|].
      intros b Hb. destruct (Hlabels b Hb) as [i Hi]. unfold int_of. by rewrite Hi.
    + by rewrite length_fmap.
    + intros k b Hk. exists (int_of b.1.2). rewrite list_lookup_fmap, Hk.
      split; [done|].
      destruct (Hlabels b) as [i Hi]; [apply list_elem_of_lookup; eauto|].
      unfold int_of. by rewrite Hi.
  - intros seen b rest Hbatch Hseen Hnone. unfold collate.
    destruct batch as [|b0 batch'] eqn:Hb; [done|]. rewrite <-Hb in *.
    rewrite (np_vstack_uniform _ w);
      [|rewrite Hb; done|intros r (x & -> & Hin)%list_elem_of_fmap; by apply Hw].
    simpl. rewrite Hbatch, !fmap_app, !fmap_cons.
    rewrite (comprehension_outcome_Throw _ _ _ _ (KeyError b.1.2)); [done|..].
    + intros label (x & -> & Hin)%list_elem_of_fmap.
      destruct (Hseen x Hin) as [i Hi]. exists i. by apply dict_index_Some.
    + unfold dict_index. by rewrite Hnone.
Qed.

Lemma collate_labels_witness :
  ∃ dm, toy_data_module = Return dm
    ∧ collate dm [([Fin 1; Fin 2], "T cell", "s1"); ([Fin 5; Fin 6], "NK cell", "s2")]
      = Throw (KeyError "NK cell").
Proof.
  eexists. split; [reflexivity|].
  match goal with
  | |- collate ?dm ?batch = _ =>
      destruct (collate_labels dm batch 2%nat) as [_ Hkey]
  end.
  - done.
  - intros b Hb.
    apply elem_of_cons in Hb as [->|Hb]; [reflexivity|].
    apply elem_of_cons in Hb as [->|Hb]; [reflexivity|].
    by apply elem_of_nil in Hb.
  - apply (Hkey [([Fin 1; Fin 2], "T cell", "s1")] ([Fin 5; Fin 6], "NK cell", "s2") []);
      [reflexivity | | reflexivity].
    intros x Hx.
    apply elem_of_cons in Hx as [->|Hx]; [by eexists|].
    by apply elem_of_nil in Hx.
Defined.

(** X17: the profiles of a collated batch are squeezed: a batch of one
    cell with a width other than 1 comes out as the vector of that cell, not
    as a matrix of one row; a batch of two or more cells of a width of
    two or more comes out as the matrix of the cells in the order of the
    batch.  The entries are those of the cells as [torch.Tensor] holds
    them, in float32. *)
Theorem collate_squeezed {D : Type} (self : MetricLearningZarrDataModule D)
    (batch : list (row * string * string)) (w : nat)
    (profiles : squeezed) (ints : list nat) (studies : list string) :
  collate self batch = Return (profiles, ints, studies) →
  (∀ b, b ∈ batch → length b.1.1 = w) →
  (∀ b, batch = [b] → w ≠ 1%nat → profiles = Vector (to_float32 <$> b.1.1))
  ∧ ((2 ≤ length batch)%nat → (2 ≤ w)%nat →
     profiles = Matrix (torch_Tensor ((λ b, b.1.1) <$> batch))).
Proof.
  intros Hcollate Hw.
  assert (batch ≠ []) as Hne by (intros ->; done).
  assert (profiles = squeeze (torch_Tensor ((λ b, b.1.1) <$> batch))) as ->.
  { unfold collate in Hcollate. destruct batch as [|b0 rest] eqn:Hb; [done|].
    rewrite <-Hb in *.
    rewrite (np_vstack_uniform _ w) in Hcollate;
      [|rewrite Hb; done|intros r (x & -> & Hin)%list_elem_of_fmap; by apply Hw].
    simpl in Hcollate.
    destruct (comprehension_outcome _ _); [|done]. simpl in Hcollate. by simplify_eq. }
  split.
  - intros b -> Hw1. simpl.
    pose proof (Hw b ltac:(apply list_elem_of_here)) as Hlen.
    destruct b as [[[|x [|y r]] label] study]; simpl in *; try done; lia.
  - intros Hlen Hwide. destruct batch as [|b1 [|b2 rest]]; simpl in Hlen; [lia|lia|].
    pose proof (Hw b1 ltac:(apply list_elem_of_here)) as Hlen1.
    destruct b1 as [[[|x [|y r]] label] study]; simpl in *; try done; lia.
Qed.

Lemma collate_squeezed_witness :
  ∃ dm, toy_data_module = Return dm
    ∧ collate dm [([Fin 1; Fin 2], "T cell", "s1")]
      = Return (Vector (to_float32 <$> [Fin 1; Fin 2]), [1%nat], ["s1"]).
Proof.
  eexists. split; [reflexivity|].
  match goal with
  | |- collate ?dm ?batch = _ =>
      assert (collate dm batch
              = Return (squeeze (torch_Tensor [[Fin 1; Fin 2]]), [1%nat], ["s1"]))
        as Hrun by reflexivity;
      destruct (collate_squeezed dm batch 2%nat _ _ _ Hrun) as [Hone _]
  end.
  - intros b Hb. apply elem_of_cons in Hb as [->|Hb]; [reflexivity|].
    by apply elem_of_nil in Hb.
  - rewrite Hrun.
    rewrite (Hone ([Fin 1; Fin 2], "T cell", "s1") eq_refl ltac:(lia)). reflexivity.
Defined.

(** X18: in a data module constructed for the label column
    "celltype_name", over stores with one label and one study per row, a
    batch of items read from the training view never meets an unknown label:
    [collate] returns, and the integer of each item is read back by
    [int2label] as the label of the item. *)
Theorem data_module_train_batch_collates {D : Type} `{Store D} `{DataFiles D}
    (train_path gene_order : string) (val_path test_path : option string)
    (batch_size num_workers : Z) (dm : MetricLearningZarrDataModule D)
    (batch : list (row * string * string)) (w : nat) :
  MetricLearningZarrDataModule_init train_path gene_order val_path test_path
    "celltype_name" batch_size num_workers = Return dm →
  (∀ z, z ∈ data_list (dataset (train dm)) →
        length (get_obs z "celltype_name") = shape0 z
        ∧ length (get_obs z "study") = shape0 z) →
  batch ≠ [] →
  (∀ b, b ∈ batch → length b.1.1 = w) →
  (∀ b, b ∈ batch →
        ∃ idx : nat, scDatasetFromList_getitem (dataset (train dm)) (Z.of_nat idx) = Ok b) →
  ∃ profiles ints,
    collate dm batch = Return (profiles, ints, (λ b, b.2) <$> batch)
    ∧ ∀ (k : nat) b, batch !! k = Some b →
        ∃ i, ints !! k = Some i ∧ dict_get (int2label dm) i = Some b.1.2.
Proof.
  intros Hinit Hcols Hne Hw Hitems.
  pose proof Hinit as (Htrain & _ & _ & _ & _ & Hnames & Hl2i & Hi2l)
    %MetricLearningZarrDataModule_init_Return.
  assert (NoDup (class_names dm)) as Hnodup by (rewrite Hnames; apply set_iter_NoDup).
  apply load_split_Return in Htrain as (stores & Hds & HY & _).
  assert (∀ b, b ∈ batch → ∃ i : nat, class_names dm !! i = Some b.1.2) as Hknown.
  { intros [[cell label] study] Hb. destruct (Hitems _ Hb) as [idx Hget].
    rewrite Hds in Hget, Hcols.
    destruct (getitem_columns stores "celltype_name" "study" idx cell label study)
      as [Hlabel _]; [intros z Hz; by apply Hcols..|done|].
    apply list_elem_of_lookup. rewrite Hnames. apply set_iter_elem_of.
    rewrite HY. apply list_elem_of_lookup. eauto. }
  set (int_of := λ label, default 0%nat (dict_get (label2int dm) label)).
  assert (∀ b, b ∈ batch → dict_get (label2int dm) b.1.2 = Some (int_of b.1.2)) as Hint.
  { intros b Hb. destruct (Hknown b Hb) as [i Hi].
    apply (label2int_get _ _ _ Hnodup) in Hi. rewrite <-Hl2i in Hi.
    unfold int_of. by rewrite Hi. }
  exists (squeeze (torch_Tensor ((λ b, b.1.1) <$> batch))),
    ((λ b, int_of b.1.2) <$> batch).
  split; [by apply (collate_Return dm batch w int_of)|].
  intros k b Hk. exists (int_of b.1.2). rewrite list_lookup_fmap, Hk. split; [done|].
  pose proof (Hint b ltac:(apply list_elem_of_lookup; eauto)) as Hb.
  rewrite Hl2i in Hb. apply (label2int_get _ _ _ Hnodup) in Hb.
  rewrite Hi2l, Hl2i. by apply int2label_get.
Qed.

Lemma data_module_train_batch_collates_witness :
  ∃ dm, toy_data_module = Return dm
    ∧ ∃ profiles ints,
        collate dm [([Fin 3; Fin 4], "B cell", "s1"); ([Fin 5; Fin 6], "T cell", "s2")]
        = Return (profiles, ints, ["s1"; "s2"]).
Proof.
  eexists. split; [reflexivity|].
  destruct (@data_module_train_batch_collates toy_store toy_store_Store toy_files
              "train" "gene_order.tsv" None None 1000 1 _
              [([Fin 3; Fin 4], "B cell", "s1"); ([Fin 5; Fin 6], "T cell", "s2")]
              2%nat eq_refl)
    as (profiles & ints & Hrun & _).
  - intros z Hz. simpl in Hz.
    apply elem_of_cons in Hz as [->|Hz]; [split; reflexivity|].
    apply elem_of_cons in Hz as [->|Hz]; [split; reflexivity|].
    by apply elem_of_nil in Hz.
  - done.
  - intros b Hb.
    apply elem_of_cons in Hb as [->|Hb]; [reflexivity|].
    apply elem_of_cons in Hb as [->|Hb]; [reflexivity|].
    by apply elem_of_nil in Hb.
  - intros b Hb.
    apply elem_of_cons in Hb as [->|Hb]; [by exists 1%nat|].
    apply elem_of_cons in Hb as [->|Hb]; [by exists 2%nat|].
    by apply elem_of_nil in Hb.
  - exists profiles, ints. exact Hrun.
Defined.

(** ** The inferred network size *)

Section infer.
Implicit Types layer_sizes : list (string * list Z).






End infer.



Example infer_parameters_sorted_keys :
  infer_parameters [("network.0.weight", [1024; 28231]); ("network.0.bias", [1024]);
                    ("network.1.weight", [512; 1024]); ("network.2.weight", [128; 512])]
  = Ok {| latent_dim := 128; hidden_dim := [1024; 512] |}
  ∧ infer_parameters [("network.2.weight", [16; 8]); ("network.10.weight", [4; 16])]
    = Ok {| latent_dim := 16; hidden_dim := [4] |}
  ∧ infer_parameters [("network.0.bias", [1024])]
    = Raise (IndexError "list index out of range").
Proof. repeat split; reflexivity. Qed.

(** ** The sampler of the training loader *)

(** X20: the sampler that [train_dataloader] asks for, from the labels and
    studies of the training split.  Over stores with one label and one study
    per row and a training view that is not empty, the sampler is built, and
    it holds one weight per item of the view and draws as many samples as
    the view has items.  Over a training view without items its construction
    raises the [ValueError] of the sampler for a sample count of 0. *)
Theorem data_module_train_sampler {D : Type} `{Store D} `{DataFiles D}
    (train_path gene_order : string) (val_path test_path : option string)
    (obs_field : string) (batch_size num_workers : Z)
    (dm : MetricLearningZarrDataModule D) :
  MetricLearningZarrDataModule_init train_path gene_order val_path test_path
    obs_field batch_size num_workers = Return dm →
  (∀ z, z ∈ data_list (dataset (train dm)) →
        length (get_obs z obs_field) = shape0 z
        ∧ length (get_obs z "study") = shape0 z) →
  ((0 < scDatasetFromList_len (dataset (train dm)))%nat →
   ∃ s, get_sampler_weights (split_Y (train dm)) (Some (split_study (train dm))) = Ok s
     ∧ length (weights s) = scDatasetFromList_len (dataset (train dm))
     ∧ num_samples s = Z.of_nat (scDatasetFromList_len (dataset (train dm))))
  ∧ (scDatasetFromList_len (dataset (train dm)) = 0%nat →
     get_sampler_weights (split_Y (train dm)) (Some (split_study (train dm)))
     = Raise (ValueError
                "num_samples should be a positive integer value, but got num_samples=0")).
Proof.
  intros (Htrain & _)%MetricLearningZarrDataModule_init_Return Hcols.
  apply load_split_Return in Htrain as (stores & Hds & HY & Hstudy).
  rewrite Hds in *. unfold scDatasetFromList_len.
  change (ncells (scDatasetFromList_init stores "celltype_name" "study"))
    with (sum_list (shape0 <$> stores)).
  change (data_list (scDatasetFromList_init stores "celltype_name" "study"))
    with stores in Hcols.
  assert (length (split_Y (train dm)) = sum_list (shape0 <$> stores)) as HlenY
    by (rewrite HY; apply columns_length; intros z Hz; by apply Hcols).
  assert (length (split_study (train dm)) = sum_list (shape0 <$> stores)) as Hlenstudy
    by (rewrite Hstudy; apply columns_length; intros z Hz; by apply Hcols).
  split.
  - intros Hpos. eexists. split.
    + apply get_sampler_weights_studies; [|lia].
      intros Hnil. rewrite Hnil in HlenY. simpl in HlenY. lia.
    + simpl. rewrite length_zip_with, HlenY, Hlenstudy. split; [lia|done].
  - intros Hzero.
    destruct (split_Y (train dm)); [|simpl in HlenY; lia]. reflexivity.
Qed.

Lemma data_module_train_sampler_witness :
  ∃ dm, toy_data_module = Return dm
    ∧ (0 < scDatasetFromList_len (dataset (train dm)))%nat
    ∧ ∃ s, get_sampler_weights (split_Y (train dm)) (Some (split_study (train dm))) = Ok s
        ∧ num_samples s = Z.of_nat (scDatasetFromList_len (dataset (train dm))).
Proof.
  eexists. split; [reflexivity|]. split; [simpl; lia|].
  destruct (@data_module_train_sampler toy_store toy_store_Store toy_files
              "train" "gene_order.tsv" None None "celltype_name" 1000 1 _ eq_refl)
    as [Hsome _].
  - intros z Hz. simpl in Hz.
    apply elem_of_cons in Hz as [->|Hz]; [split; reflexivity|].
    apply elem_of_cons in Hz as [->|Hz]; [split; reflexivity|].
    by apply elem_of_nil in Hz.
  - destruct (Hsome ltac:(simpl; lia)) as (s & Hs & _ & Hnum).
    exists s. split; [exact Hs | exact Hnum].
Defined.
